(** * PrinceTailorApp: the order API of [server.js]

    A shallow embedding of the four Express routes of [server.js]
    ([POST /api/orders], [PUT /api/orders/:billNumber/complete],
    [GET /api/orders/pending], [GET /api/orders]) and of the start-up
    sequence, together with the properties of the order lifecycle.

    The row store ([Orders] table) is a list of rows in insertion order, the
    disk is a finite set of file paths.  Every route is a computation in a
    small state-and-log monad: the state holds the two stores and the
    unlinks that were requested and have not completed yet, the log records
    the calls in the order the code makes them.  Requests are handled one at
    a time, each statement of the row store being atomic; a requested
    unlink completes later, as an event of its own. *)

From stdpp Require Import base gmap sets list strings sorting pretty.

#[local] Set Warnings "-clear-no-such-hyp".
Local Open Scope Z_scope.

(** ** Data model *)

(** The three values of the [status] column. [InProgress] is the text
    ['In Progress'] of the pending query. *)
Inductive Status : Type := Pending | InProgress | Complete.

#[global] Instance Status_eq_dec : EqDecision Status.
Proof. solve_decision. Defined.

(** A row of the [Orders] table, with the columns named by the INSERT,
    UPDATE and SELECT statements. [total_amount] is the DECIMAL column in
    hundredths; [None] is SQL NULL. *)
Record Order : Type := mkOrder {
  bill_number : string;
  bill_date : string;
  delivery_date : string;
  notes : string;
  status : Status;
  customer_name : string;
  total_amount : Z;
  image_path : option string;
  completion_date : option string
}.

#[global] Instance Order_eq_dec : EqDecision Order.
Proof. solve_decision. Defined.

(** ** Paths *)

(** The character [/]. *)
Definition slash : Ascii.ascii :=
  Ascii.Ascii true true true true false true false false.

(** The segments of a path between its slashes. *)
Fixpoint segments (s : string) : list string :=
  match s with
  | EmptyString => [EmptyString]
  | String c s' =>
      if Ascii.eqb c slash then EmptyString :: segments s'
      else match segments s' with
           | seg :: rest => String c seg :: rest
           | [] => [String c EmptyString]
           end
  end.

(** One segment met by [path.normalize], on the segments kept so far (the
    last one first): empty segments and [.] are skipped, [..] drops the
    segment before it, or is kept when there is none to drop and the path
    is relative. *)
Definition push_segment (absolute : bool) (kept : list string) (seg : string)
  : list string :=
  if bool_decide (seg = "" ∨ seg = ".") then kept
  else if bool_decide (seg = "..") then
    match kept with
    | top :: rest => if bool_decide (top = "..") then seg :: kept else rest
    | [] => if absolute then [] else [seg]
    end
  else seg :: kept.

Definition starts_with_slash (s : string) : bool :=
  match s with
  | String c _ => Ascii.eqb c slash
  | EmptyString => false
  end.

Fixpoint ends_with_slash (s : string) : bool :=
  match s with
  | EmptyString => false
  | String c EmptyString => Ascii.eqb c slash
  | String _ s' => ends_with_slash s'
  end.

(** [path.normalize] of Node, POSIX flavour. *)
Definition path_normalize (p : string) : string :=
  if bool_decide (p = "") then "."
  else
    let absolute := starts_with_slash p in
    let body :=
      String.concat "/"
        (reverse (foldl (push_segment absolute) [] (segments p))) in
    if bool_decide (body = "") then
      (if absolute then "/" else if ends_with_slash p then "./" else ".")
    else
      (if absolute then "/" else "") +:+ body +:+
      (if ends_with_slash p then "/" else "").

(** [path.join] of two non-empty parts. *)
Definition path_join (a b : string) : string :=
  path_normalize (a +:+ "/" +:+ b).

(** [s] without the prefix [pre], when it has it. *)
Fixpoint strip_prefix (pre s : string) : option string :=
  match pre, s with
  | EmptyString, _ => Some s
  | String a pre', String b s' =>
      if Ascii.eqb a b then strip_prefix pre' s' else None
  | String _ _, EmptyString => None
  end.

(** ** The stores *)

(** What the routes work on: the table, the files of the disk by path
    (relative to the directory the server runs in), and the paths whose
    [fs.unlink] was requested and has not completed. *)
Record World : Type := mkWorld {
  Orders : list Order;
  files : gset string;
  pending : list string
}.

(** The listing of the [uploads/] directory: the files below it, named
    relative to it. *)
Definition uploads (w : World) : gset string :=
  set_omap (strip_prefix "uploads/") (files w).

(** What a request reads from outside the stores: the clocks, whether the
    disk lets a file be created at a path, and how the row store answers. *)
Inductive DupReport : Type := RaisesDupEntry | ReportsZeroRows.

Record Env : Type := mkEnv {
  today : string;          (* new Date().toISOString().split('T')[0] *)
  date_now : Z;            (* Date.now() *)
  sql_now : string;        (* NOW() *)
  writable : string → bool;  (* the write stream to this path can be opened *)
  store_fault : option string;  (* err.code of a statement the store rejects *)
  dup_report : DupReport   (* how the pool reports a taken bill_number *)
}.

(** ** Requests and responses *)

(** [req.file] as multer hands it over: [extension] is
    [path.extname(file.originalname)]. *)
Record File : Type := mkFile { extension : string }.

(** [req.body] and the [style_image] part of a creation request. A form
    field that was not sent is [None] (JavaScript [undefined]).
    [bill_number_first] tells whether the [bill_number] field comes before
    the image part in the multipart body: multer fills [req.body] part by
    part, and names the file when the image part arrives. *)
Record CreateReq : Type := mkCreateReq {
  body_bill_number : option string;
  body_delivery_date : option string;
  body_notes : option string;
  style_image : option File;
  bill_number_first : bool
}.

(** [req.file] as multer leaves it for the callback. *)
Record ReqFile : Type := mkReqFile {
  file_filename : string;   (* req.file.filename *)
  file_path : string        (* req.file.path *)
}.

(** The rows of the two SELECT lists. *)
Record PendingRow : Type := mkPendingRow {
  p_bill_number : string;
  p_delivery_date : string;
  p_notes : string;
  p_status : Status;
  p_image_path : option string
}.

Record HistoryRow : Type := mkHistoryRow {
  h_bill_number : string;
  h_delivery_date : string;
  h_notes : string;
  h_status : Status;
  h_completion_date : option string;
  h_image_path : option string
}.

Inductive Body : Type :=
  | ErrorPage                 (* the error page of Express, not JSON *)
  | JError (error : string)
  | JMessage (message : string)
  | JCreated (message : string) (bill : string)
  | JPending (rows : list PendingRow)
  | JOrders (rows : list HistoryRow).

Record Response : Type := mkResponse { code : Z; body : Body }.

(** What [pool.execute] settles to: the [affectedRows] of the result
    header, or a rejection carrying [err.code]. *)
Inductive Reply (A : Type) : Type :=
  | Resolved (a : A)
  | Rejected (err_code : string).
Arguments Resolved {A} a.
Arguments Rejected {A} err_code.

(** ** Effects *)

Inductive Step : Type :=
  | Persist (name : string)       (* multer writes the file it named *)
  | Validate (ok : bool)          (* the check of line 48 *)
  | Unlink (path : string)        (* fs.unlink(req.file.path, ...) is called *)
  | Insert (o : Order)            (* the INSERT statement is sent *)
  | Update (bn : string)          (* the UPDATE statement is sent *)
  | Select                        (* a SELECT statement is sent *)
  | Respond (c : Z).              (* res.status(c).json(...) *)

#[global] Instance Step_eq_dec : EqDecision Step.
Proof. solve_decision. Defined.

Definition Handler (A : Type) : Type := World → A * World * list Step.

Definition ret {A} (a : A) : Handler A := λ w, (a, w, []).

Definition bind {A B} (m : Handler A) (k : A → Handler B) : Handler B :=
  λ w, let '(a, w1, l1) := m w in
       let '(b, w2, l2) := k a w1 in
       (b, w2, l1 ++ l2).

Declare Scope handler_scope.
Delimit Scope handler_scope with handler.
Notation "x <~ m ;; k" := (bind m (λ x, k))
  (at level 100, m at next level, right associativity) : handler_scope.
Notation "m ;;; k" := (bind m (λ _, k))
  (at level 100, right associativity) : handler_scope.
Local Open Scope handler_scope.

Definition emit (s : Step) : Handler unit := λ w, (tt, w, [s]).

(** JavaScript truthiness of a form field: [undefined] and the empty
    string are falsy, every other string is truthy. *)
Definition truthy (v : option string) : bool :=
  match v with
  | None => false
  | Some s => negb (String.eqb s "")
  end.

(** [v || d] on a form field. *)
Definition or_default (v : option string) (d : string) : string :=
  match v with
  | None => d
  | Some s => if String.eqb s "" then d else s
  end.

(** [req.body.bill_number] as the [filename] callback finds it: the field
    is there only when it was sent before the image. *)
Definition body_at_upload (r : CreateReq) : option string :=
  if bill_number_first r then body_bill_number r else None.

(** The [filename] callback of the disk storage (lines 18-23). *)
Definition filename (env : Env) (r : CreateReq) (f : File) : string :=
  or_default (body_at_upload r) "temp" +:+ "-style-" +:+
  pretty (date_now env) +:+ extension f.

(** The disk storage writes the file it named [name] at [path], replacing
    a file that is there. *)
Definition fs_write (name path : string) : Handler unit :=
  λ w, (tt, mkWorld (Orders w) ({[path]} ∪ files w) (pending w),
        [Persist name]).

(** [fs.unlink(path, callback)]: the call only requests the removal and
    returns; the removal itself is [unlink_done], after the callback of the
    route has run to its end. *)
Definition fs_unlink (path : string) : Handler unit :=
  λ w, (tt, mkWorld (Orders w) (files w) (pending w ++ [path]),
        [Unlink path]).

(** The oldest requested unlink completes: the file is removed, or the
    removal fails ([removed = false]), which the callback of lines 51-53
    and 84-86 only logs. Removing a file that is not there changes
    nothing. *)
Definition unlink_done (removed : bool) (w : World) : World :=
  match pending w with
  | [] => w
  | path :: rest =>
      mkWorld (Orders w)
              (if removed then files w ∖ {[path]} else files w) rest
  end.

(** All requested unlinks complete, each with its own outcome (an unlink
    without a listed outcome succeeds). *)
Fixpoint settle (outcomes : list bool) (n : nat) (w : World) : World :=
  match n with
  | O => w
  | S n' =>
      match outcomes with
      | [] => settle [] n' (unlink_done true w)
      | ok :: rest => settle rest n' (unlink_done ok w)
      end
  end.

(** Every requested unlink has completed and removed its file. *)
Definition drain (w : World) : World := settle [] (length (pending w)) w.

Definition respond (c : Z) (b : Body) : Handler Response :=
  λ w, (mkResponse c b, w, [Respond c]).

(** ** The row store *)

Definition key_taken (bn : string) (t : list Order) : bool :=
  bool_decide (bn ∈ bill_number <$> t).

(** Modelled from the spec: the pool of [./db] and the unique key of the
    [Orders] table on [bill_number], neither of which is in [server.js].
    The INSERT adds the row when its bill number is free; when it is taken
    no row is added and the pool either rejects with [ER_DUP_ENTRY] or
    resolves with [affectedRows = 0]; a store fault rejects the statement
    and leaves the table as it was. *)
Definition sql_insert (env : Env) (o : Order) : Handler (Reply nat) :=
  λ w,
    match store_fault env with
    | Some c => (Rejected c, w, [Insert o])
    | None =>
        if key_taken (bill_number o) (Orders w) then
          (match dup_report env with
           | RaisesDupEntry => Rejected "ER_DUP_ENTRY"
           | ReportsZeroRows => Resolved 0%nat
           end, w, [Insert o])
        else (Resolved 1%nat,
              mkWorld (Orders w ++ [o]) (files w) (pending w), [Insert o])
    end.

(** ** Route A: POST /api/orders *)

(** What [upload.single('style_image')] leaves: no file part, the stored
    file, or a failed write. *)
Inductive Upload : Type :=
  | NoImage
  | Stored (file : ReqFile)
  | WriteFailed.

(** [upload.single('style_image')]: runs before the route's callback. It
    names the attached file with [filename] and writes it at
    [path.join('uploads/', name)]. When the file cannot be created the
    request ends here: multer passes the error on and Express answers
    500. *)
Definition upload_single (env : Env) (r : CreateReq) : Handler Upload :=
  match style_image r with
  | None => ret NoImage
  | Some f =>
      let name := filename env r f in
      let path := path_join "uploads/" name in
      if writable env path then
        (fs_write name path;;; ret (Stored (mkReqFile name path)))
      else ret WriteFailed
  end.

#[global] Instance ReqFile_eq_dec : EqDecision ReqFile.
Proof. solve_decision. Defined.

#[global] Instance Upload_eq_dec : EqDecision Upload.
Proof. solve_decision. Defined.

(** The clean-up of lines 50-54 and 83-87. *)
Definition cleanup (file : option ReqFile) : Handler unit :=
  match file with
  | Some f => fs_unlink (file_path f)
  | None => ret tt
  end.

(** The row the INSERT of lines 59-70 builds from its five parameters and
    its three literals; [completion_date] is not listed and stays NULL.
    The statement is built only past the check of line 48, where both
    required fields are present: [default ""] merely unwraps them. *)
Definition new_row (r : CreateReq) (bill_date : string)
    (image_path : option string) : Order :=
  mkOrder (default "" (body_bill_number r)) bill_date
          (default "" (body_delivery_date r))
          (or_default (body_notes r) "")
          Pending "N/A" 0 image_path None.

(** The callback of lines 42-94; [file] is [req.file]. *)
Definition create_order (env : Env) (r : CreateReq) (file : option ReqFile)
  : Handler Response :=
  let bill_date := today env in
  let image_path := file_filename <$> file in
  if negb (truthy (body_bill_number r)) || negb (truthy (body_delivery_date r))
  then
    (emit (Validate false);;;
     cleanup file;;;
     respond 400 (JError "Bill number and delivery date are required."))
  else
    (emit (Validate true);;;
     result <~ sql_insert env (new_row r bill_date image_path);;
     match result with
     | Resolved affectedRows =>
         if (affectedRows =? 0)%nat then
           respond 409 (JError "Bill number already exists or failed to insert.")
         else
           respond 201 (JCreated "Order created successfully."
                                 (default "" (body_bill_number r)))
     | Rejected err_code =>
         (cleanup file;;;
          if String.eqb err_code "ER_DUP_ENTRY" then
            respond 409
              (JError "Bill number already exists. Please use a unique number.")
          else respond 500 (JError "Failed to create order."))
     end).

Definition post_orders (env : Env) (r : CreateReq) : Handler Response :=
  upload <~ upload_single env r;;
  match upload with
  | NoImage => create_order env r None
  | Stored file => create_order env r (Some file)
  | WriteFailed => respond 500 ErrorPage
  end.

(** ** Route B: PUT /api/orders/:billNumber/complete *)

(** The WHERE clause of the UPDATE (line 106). *)
Definition eligible (bn : string) (o : Order) : bool :=
  bool_decide (bill_number o = bn) && negb (bool_decide (status o = Complete)).

(** The SET clause of the UPDATE (line 105) on one row. *)
Definition set_complete (now : string) (o : Order) : Order :=
  mkOrder (bill_number o) (bill_date o) (delivery_date o) (notes o)
          Complete (customer_name o) (total_amount o) (image_path o)
          (Some now).

Definition complete_row (now bn : string) (o : Order) : Order :=
  if eligible bn o then set_complete now o else o.

(** The UPDATE statement: [affectedRows] counts the rows of the WHERE
    clause, each of which the SET clause changes. *)
Definition sql_complete (env : Env) (bn : string) : Handler (Reply nat) :=
  λ w,
    match store_fault env with
    | Some c => (Rejected c, w, [Update bn])
    | None =>
        (Resolved (length (filter (λ o, eligible bn o = true) (Orders w))),
         mkWorld (complete_row (sql_now env) bn <$> Orders w) (files w)
                 (pending w),
         [Update bn])
    end.

Definition put_complete (env : Env) (billNumber : string) : Handler Response :=
  result <~ sql_complete env billNumber;;
  match result with
  | Resolved affectedRows =>
      if (affectedRows =? 0)%nat then
        respond 404 (JMessage "Order not found or status not updated.")
      else
        respond 200 (JMessage ("Bill " +:+ billNumber +:+
                               " marked as Complete and ready for pickup."))
  | Rejected _ => respond 500 (JError "Failed to update order status.")
  end.

(** ** Route C: GET /api/orders/pending *)

(** [delivery_date BETWEEN ? AND ?]: ISO dates compare as their text. *)
Definition between (lo hi d : string) : bool :=
  bool_decide (String.le lo d) && bool_decide (String.le d hi).

(** The WHERE clause of the pending query (lines 132-133). *)
Definition is_pending (lo hi : string) (o : Order) : bool :=
  (bool_decide (status o = Pending) || bool_decide (status o = InProgress))
  && between lo hi (delivery_date o).

Definition pending_row (o : Order) : PendingRow :=
  mkPendingRow (bill_number o) (delivery_date o) (notes o) (status o)
               (image_path o).

(** [ORDER BY delivery_date ASC] *)
Definition by_delivery_asc (a b : Order) : Prop :=
  String.le (delivery_date a) (delivery_date b).

#[global] Instance by_delivery_asc_dec : RelDecision by_delivery_asc.
Proof. intros a b. unfold by_delivery_asc. apply _. Defined.

Definition sql_select_pending (env : Env) (lo hi : string)
  : Handler (Reply (list PendingRow)) :=
  λ w,
    match store_fault env with
    | Some c => (Rejected c, w, [Select])
    | None =>
        (Resolved (pending_row <$>
           merge_sort by_delivery_asc
             (filter (λ o, is_pending lo hi o = true) (Orders w))),
         w, [Select])
    end.

Definition get_pending (env : Env) (q_start q_end : option string)
  : Handler Response :=
  let start_date := or_default q_start "2000-01-01" in
  let end_date := or_default q_end "2100-01-01" in
  result <~ sql_select_pending env start_date end_date;;
  match result with
  | Resolved rows => respond 200 (JPending rows)
  | Rejected _ => respond 500 (JError "Error fetching pending orders.")
  end.

(** ** Route D: GET /api/orders *)

Definition history_row (o : Order) : HistoryRow :=
  mkHistoryRow (bill_number o) (delivery_date o) (notes o) (status o)
               (completion_date o) (image_path o).

(** [ORDER BY bill_number DESC] *)
Definition by_bill_desc (a b : Order) : Prop :=
  String.le (bill_number b) (bill_number a).

#[global] Instance by_bill_desc_dec : RelDecision by_bill_desc.
Proof. intros a b. unfold by_bill_desc. apply _. Defined.

Definition sql_select_all (env : Env) : Handler (Reply (list HistoryRow)) :=
  λ w,
    match store_fault env with
    | Some c => (Rejected c, w, [Select])
    | None =>
        (Resolved (history_row <$> merge_sort by_bill_desc (Orders w)),
         w, [Select])
    end.

Definition get_orders (env : Env) : Handler Response :=
  result <~ sql_select_all env;;
  match result with
  | Resolved rows => respond 200 (JOrders rows)
  | Rejected _ => respond 500 (JError "Error fetching all orders.")
  end.

(** ** The API as a whole *)

Inductive Request : Type :=
  | CreateOrder (r : CreateReq)
  | CompleteOrder (billNumber : string)
  | ListPending (start_date end_date : option string)
  | ListAll.

Definition handle (env : Env) (rq : Request) : Handler Response :=
  match rq with
  | CreateOrder r => post_orders env r
  | CompleteOrder bn => put_complete env bn
  | ListPending s e => get_pending env s e
  | ListAll => get_orders env
  end.

(** The three projections of a handler's result. *)
Definition response_of {A} (x : A * World * list Step) : A := x.1.1.
Definition world_of {A} (x : A * World * list Step) : World := x.1.2.
Definition steps_of {A} (x : A * World * list Step) : list Step := x.2.

(** ** Start-up (lines 164-176) *)

Definition PORT : Z := 3000.

Inductive BootStep : Type :=
  | GetConnection              (* pool.getConnection() *)
  | Release                    (* connection.release() *)
  | Listen (port : Z)          (* app.listen(PORT, ...) *)
  | Console (line : string).   (* console.log / console.error *)

#[global] Instance BootStep_eq_dec : EqDecision BootStep.
Proof. solve_decision. Defined.

(** The promise chain: [connection] is what [pool.getConnection()] settles
    to, a connection or a rejection with [err.message]. *)
Definition startup (connection : Reply unit) : list BootStep :=
  GetConnection ::
  match connection with
  | Resolved _ =>
      [Console "SUCCESSFULLY CONNECTED to MySQL Database!";
       Release;
       Listen PORT;
       Console ("Server is running on http://localhost:" +:+ pretty PORT)]
  | Rejected message =>
      [Console ("FAILED TO CONNECT to MySQL Database: " +:+ message)]
  end.

(** The process accepts requests once [app.listen] has run. *)
Definition listening (boot : list BootStep) : bool :=
  bool_decide (Listen PORT ∈ boot).

(** A request sent to the process: it is handled when the listener is up
    and gets no answer otherwise. *)
Definition serve (boot : list BootStep) (env : Env) (rq : Request) (w : World)
  : option (Response * World * list Step) :=
  if listening boot then Some (handle env rq w) else None.

(** A run of the API: requests handled one after the other, each with its
    own reading of the outside. (The unlinks requested on the way stay
    requested: the run is about the answers and the table.) *)
Fixpoint run (rqs : list (Env * Request)) (w : World) : World :=
  match rqs with
  | [] => w
  | (env, rq) :: rest => run rest (world_of (handle env rq w))
  end.

(** ** Notions used in the statements *)

(** Both required fields are present and non-empty (line 48, negated). *)
Definition valid (r : CreateReq) : bool :=
  truthy (body_bill_number r) && truthy (body_delivery_date r).

(** What the upload middleware makes of the request. *)
Definition upload_result (env : Env) (r : CreateReq) : Upload :=
  match style_image r with
  | None => NoImage
  | Some f =>
      if writable env (path_join "uploads/" (filename env r f)) then
        Stored (mkReqFile (filename env r f)
                          (path_join "uploads/" (filename env r f)))
      else WriteFailed
  end.

(** [req.file] when the callback runs. *)
Definition stored_file (env : Env) (r : CreateReq) : option ReqFile :=
  match upload_result env r with
  | Stored f => Some f
  | _ => None
  end.

(** The name the upload middleware gave to the request's image. *)
Definition stored_name (env : Env) (r : CreateReq) : option string :=
  file_filename <$> stored_file env r.

(** The stores as the callback finds them. *)
Definition uploaded (env : Env) (r : CreateReq) (w : World) : World :=
  match stored_file env r with
  | Some f => mkWorld (Orders w) ({[file_path f]} ∪ files w) (pending w)
  | None => w
  end.

Definition persisted (env : Env) (r : CreateReq) : list Step :=
  match stored_file env r with
  | Some f => [Persist (file_filename f)]
  | None => []
  end.

(** An order the completion applies to: it carries the bill number and is
    not Complete yet. *)
Definition open_order (bn : string) (o : Order) : Prop :=
  bill_number o = bn ∧ status o ≠ Complete.

(** An order of the work queue for the range [lo, hi]: its status is
    Pending or InProgress and its delivery date lies in the range, both
    ends included. *)
Definition in_queue (lo hi : string) (o : Order) : Prop :=
  (status o = Pending ∨ status o = InProgress) ∧
  String.le lo (delivery_date o) ∧ String.le (delivery_date o) hi.

#[global] Instance in_queue_dec lo hi o : Decision (in_queue lo hi o).
Proof. unfold in_queue. apply _. Defined.

(** The bound a query parameter stands for: its own value, or the default
    when it is omitted (or sent empty). *)
Definition bound (q : option string) (dflt b : string) : Prop :=
  ((q = None ∨ q = Some "") ∧ b = dflt) ∨ (q = Some b ∧ b ≠ "").

(** ** Sample inputs *)

(** A disk on which [uploads/] exists, has no directory below it, and is
    the only place where files can be created. *)
Definition plain_disk (p : string) : bool :=
  match strip_prefix "uploads/" p with
  | Some n => bool_decide (length (segments n) = 1%nat)
  | None => false
  end.

Definition env_a : Env :=
  mkEnv "2025-01-02" 1735812000000 "2025-01-02 10:00:00" plain_disk None
        RaisesDupEntry.

(** The same outside, with a pool that reports a taken bill number by
    [affectedRows = 0]. *)
Definition env_z : Env :=
  mkEnv "2025-01-02" 1735812000555 "2025-01-02 10:00:01" plain_disk None
        ReportsZeroRows.

(** The outside of [env_z], with a pool that rejects the duplicate. *)
Definition env_z' : Env :=
  mkEnv "2025-01-02" 1735812000555 "2025-01-02 10:00:01" plain_disk None
        RaisesDupEntry.

(** The store rejects the statement. *)
Definition env_f : Env :=
  mkEnv "2025-01-02" 1735812000000 "2025-01-02 10:00:00" plain_disk
        (Some "ECONNREFUSED") RaisesDupEntry.

Definition world_0 : World := mkWorld [] ∅ [].

Definition req_b100 : CreateReq :=
  mkCreateReq (Some "B100") (Some "2025-01-10") None (Some (mkFile ".png"))
              true.

Definition req_b101 : CreateReq :=
  mkCreateReq (Some "B101") (Some "2025-01-05") (Some "two sleeves") None
              true.

(** No bill number, an image attached. *)
Definition req_nokey : CreateReq :=
  mkCreateReq None (Some "2025-01-10") None (Some (mkFile ".jpg")) true.

(** A bill number with a slash, no delivery date, an image attached: the
    file would go to [uploads/a/], which is not there. *)
Definition req_slash : CreateReq :=
  mkCreateReq (Some "a/b") None None (Some (mkFile ".png")) true.

Definition world_1 : World := world_of (post_orders env_a req_b100 world_0).
Definition world_2 : World := world_of (post_orders env_a req_b101 world_1).

(** ** Notions used in the further properties *)

(** The file the upload middleware stores for a request, if any. *)
Definition request_file (env : Env) (rq : Request) : option ReqFile :=
  match rq with
  | CreateOrder r => stored_file env r
  | _ => None
  end.

(** A statement sent to the row store. *)
Definition is_statement (s : Step) : bool :=
  match s with
  | Insert _ | Update _ | Select => true
  | _ => false
  end.

(** How a row may differ from an earlier state of itself: only by having
    been completed. *)
Definition evolves (o o' : Order) : Prop :=
  bill_number o' = bill_number o ∧ bill_date o' = bill_date o ∧
  delivery_date o' = delivery_date o ∧ notes o' = notes o ∧
  image_path o' = image_path o ∧ customer_name o' = customer_name o ∧
  total_amount o' = total_amount o ∧
  (o' = o ∨ (status o ≠ Complete ∧ status o' = Complete ∧
             is_Some (completion_date o'))).

(** A row as the INSERT writes it. *)
Definition fresh_row (o : Order) : Prop :=
  status o = Pending ∧ completion_date o = None ∧
  customer_name o = "N/A" ∧ total_amount o = 0.

(** One state of the table is a later state of another: the rows of the
    first are still there, in place, possibly completed, followed by rows
    that were inserted since (and possibly completed). *)
Definition later_table (t t' : list Order) : Prop :=
  ∃ old new, t' = old ++ new ∧ Forall2 evolves t old ∧
             Forall (λ o', ∃ o, fresh_row o ∧ evolves o o') new.

(** The same outside as [env_a], with a pool that rejects the duplicate. *)
Definition env_b : Env :=
  mkEnv "2025-01-02" 1735812000000 "2025-01-02 10:00:05" plain_disk None
        RaisesDupEntry.

Definition req_b100_again : CreateReq :=
  mkCreateReq (Some "B100") (Some "2025-02-01") (Some "second try")
              (Some (mkFile ".png")) true.

(** [B100] completed, and a run of four further requests. *)
Definition world_3 : World := world_of (put_complete env_a "B100" world_2).

Definition later_requests : list (Env * Request) :=
  [(env_z, CompleteOrder "B100");
   (env_a, CreateOrder req_nokey);
   (env_b, CreateOrder req_b100_again);
   (env_z, CompleteOrder "B101")].

(** An answer sent to the client. *)
Definition is_respond (s : Step) : bool :=
  match s with
  | Respond _ => true
  | _ => false
  end.

(** * Properties *)

(** Case analysis on every branch of the creation callback. *)
Ltac create_cases env file :=
  unfold create_order, sql_insert, cleanup, bind, emit, respond, fs_unlink,
    ret;
  repeat match goal with
  | |- context [negb (truthy ?v)] => destruct (truthy v) eqn:?; simpl
  | |- context [store_fault env] =>
      destruct (store_fault env) as [?c|] eqn:?; simpl
  | |- context [key_taken ?k ?t] => destruct (key_taken k t) eqn:?; simpl
  | |- context [dup_report env] => destruct (dup_report env) eqn:?; simpl
  | |- context [String.eqb ?c "ER_DUP_ENTRY"] =>
      destruct (String.eqb c "ER_DUP_ENTRY") eqn:?; simpl
  | |- context [match file with _ => _ end] => destruct file; simpl
  end.

(** ** Form fields *)

Lemma truthy_false (v : option string) :
  truthy v = false ↔ v = None ∨ v = Some "".
Proof.
  destruct v as [s|]; simpl.
  - rewrite negb_false_iff. split.
    + intros H. right. f_equal. by apply String.eqb_eq.
    + intros [?|[= ->]]; [done|]. by apply String.eqb_eq.
  - split; [by left | done].
Qed.

Lemma truthy_true (v : option string) :
  truthy v = true ↔ ∃ s, v = Some s ∧ s ≠ "".
Proof.
  destruct v as [s|]; simpl.
  - rewrite negb_true_iff. split.
    + intros H. exists s. split; [done|].
      intros ->. by rewrite String.eqb_refl in H.
    + intros (s' & [= <-] & Hne). by apply String.eqb_neq.
  - split; [done | by intros (s & ? & _)].
Qed.

Lemma or_default_None (d : string) : or_default None d = d.
Proof. done. Qed.

Lemma or_default_truthy (v : option string) (d s : string) :
  v = Some s → s ≠ "" → or_default v d = s.
Proof. intros -> Hs. simpl. by apply String.eqb_neq in Hs as ->. Qed.

Lemma valid_false (r : CreateReq) :
  valid r = false ↔
  body_bill_number r = None ∨ body_bill_number r = Some "" ∨
  body_delivery_date r = None ∨ body_delivery_date r = Some "".
Proof.
  unfold valid. rewrite andb_false_iff, !truthy_false. tauto.
Qed.

(** ** Creation: the middleware, then the callback *)

Lemma post_orders_split env r w :
  post_orders env r w =
  match upload_result env r with
  | WriteFailed => (mkResponse 500 ErrorPage, w, [Respond 500])
  | _ =>
      let '(resp, w', l) :=
        create_order env r (stored_file env r) (uploaded env r w) in
      (resp, w', persisted env r ++ l)
  end.
Proof.
  unfold post_orders, upload_single, uploaded, persisted, stored_file,
    upload_result, bind.
  destruct (style_image r) as [f|]; simpl.
  - destruct (writable env _); simpl; [|done].
    by destruct (create_order _ _ _ _) as [[? ?] ?].
  - destruct w. by destruct (create_order _ _ _ _) as [[? ?] ?].
Qed.

(** The upload failed: Express answers 500, nothing else happens. *)
Lemma post_orders_write_failed env r w :
  upload_result env r = WriteFailed →
  post_orders env r w = (mkResponse 500 ErrorPage, w, [Respond 500]).
Proof. intros H. by rewrite post_orders_split, H. Qed.

(** The upload did not fail: the callback runs. *)
Lemma post_orders_callback env r w :
  upload_result env r ≠ WriteFailed →
  response_of (post_orders env r w) =
    response_of (create_order env r (stored_file env r) (uploaded env r w)) ∧
  world_of (post_orders env r w) =
    world_of (create_order env r (stored_file env r) (uploaded env r w)) ∧
  steps_of (post_orders env r w) =
    persisted env r ++
    steps_of (create_order env r (stored_file env r) (uploaded env r w)).
Proof.
  intros H. rewrite post_orders_split.
  destruct (upload_result env r); [| |done];
    by destruct (create_order _ _ _ _) as [[? ?] ?].
Qed.

Lemma uploaded_Orders env r w : Orders (uploaded env r w) = Orders w.
Proof. unfold uploaded. by destruct (stored_file env r). Qed.

Lemma create_order_invalid env r file w :
  valid r = false →
  create_order env r file w =
  (mkResponse 400 (JError "Bill number and delivery date are required."),
   match file with
   | Some f => mkWorld (Orders w) (files w) (pending w ++ [file_path f])
   | None => w
   end,
   Validate false ::
   match file with Some f => [Unlink (file_path f)] | None => [] end ++
   [Respond 400]).
Proof.
  unfold valid, create_order. intros Hv.
  rewrite <- negb_andb, Hv. destruct file; reflexivity.
Qed.

(** The callback either appends the new row and answers 201, or answers
    with an error code and leaves the table as it found it. *)
Lemma create_order_rows env r file w :
  let res := create_order env r file w in
  (code (response_of res) = 201 ∧
   Orders (world_of res) =
     Orders w ++ [new_row r (today env) (file_filename <$> file)] ∧
   files (world_of res) = files w ∧ pending (world_of res) = pending w ∧
   valid r = true ∧ store_fault env = None ∧
   key_taken (default "" (body_bill_number r)) (Orders w) = false)
  ∨ (code (response_of res) ∈ [400; 409; 500] ∧
     Orders (world_of res) = Orders w).
Proof.
  unfold valid. create_cases env file; cbn;
    try (right; split; [set_solver|done]).
  all: left; done.
Qed.

(** A valid request on a free bill number, with the store at work, is
    answered 201. *)
Lemma create_order_fresh env r file w :
  valid r = true → store_fault env = None →
  key_taken (default "" (body_bill_number r)) (Orders w) = false →
  create_order env r file w =
  (mkResponse 201 (JCreated "Order created successfully."
                            (default "" (body_bill_number r))),
   mkWorld (Orders w ++ [new_row r (today env) (file_filename <$> file)])
           (files w) (pending w),
   [Validate true; Insert (new_row r (today env) (file_filename <$> file));
    Respond 201]).
Proof.
  unfold valid. intros Hv Hf Hk. apply andb_true_iff in Hv as [Hb Hd].
  unfold create_order, sql_insert, bind, emit, respond.
  rewrite Hb, Hd, Hf. simpl. by rewrite Hk.
Qed.

(** A valid request on a taken bill number, when the pool rejects the
    INSERT with [ER_DUP_ENTRY]: the unlink of the image is requested, the
    answer is 409. *)
Lemma create_order_dup_raised env r file w :
  valid r = true → store_fault env = None →
  dup_report env = RaisesDupEntry →
  key_taken (default "" (body_bill_number r)) (Orders w) = true →
  create_order env r file w =
  (mkResponse 409
     (JError "Bill number already exists. Please use a unique number."),
   match file with
   | Some f => mkWorld (Orders w) (files w) (pending w ++ [file_path f])
   | None => w
   end,
   Validate true :: Insert (new_row r (today env) (file_filename <$> file)) ::
   match file with Some f => [Unlink (file_path f)] | None => [] end ++
   [Respond 409]).
Proof.
  unfold valid. intros Hv Hf Hr Hk. apply andb_true_iff in Hv as [Hb Hd].
  unfold create_order, sql_insert, bind, emit, respond.
  rewrite Hb, Hd, Hf. simpl. rewrite Hk, Hr. by destruct file.
Qed.

(** The same request when the pool resolves with [affectedRows = 0]:
    lines 72-74 answer 409 and return, no unlink is requested. *)
Lemma create_order_dup_zero_rows env r file w :
  valid r = true → store_fault env = None →
  dup_report env = ReportsZeroRows →
  key_taken (default "" (body_bill_number r)) (Orders w) = true →
  create_order env r file w =
  (mkResponse 409
     (JError "Bill number already exists or failed to insert."),
   w,
   [Validate true; Insert (new_row r (today env) (file_filename <$> file));
    Respond 409]).
Proof.
  unfold valid. intros Hv Hf Hr Hk. apply andb_true_iff in Hv as [Hb Hd].
  unfold create_order, sql_insert, bind, emit, respond.
  rewrite Hb, Hd, Hf. simpl. by rewrite Hk, Hr.
Qed.

(** Whatever the upload, the answer and the table are those of the
    callback or of the failed upload. *)
Lemma post_orders_rows (env : Env) (r : CreateReq) (w : World) :
  let res := post_orders env r w in
  (code (response_of res) = 201 ∧
   Orders (world_of res) =
     Orders w ++ [new_row r (today env) (stored_name env r)] ∧
   upload_result env r ≠ WriteFailed ∧
   valid r = true ∧ store_fault env = None ∧
   key_taken (default "" (body_bill_number r)) (Orders w) = false)
  ∨ (code (response_of res) ∈ [400; 409; 500] ∧
     Orders (world_of res) = Orders w).
Proof.
  intros res. subst res.
  destruct (decide (upload_result env r = WriteFailed)) as [Hu|Hu].
  - rewrite post_orders_write_failed by done. right. split; [set_solver|done].
  - destruct (post_orders_callback env r w Hu) as (-> & -> & _).
    destruct (create_order_rows env r (stored_file env r) (uploaded env r w))
      as [(Hc & Ho & _ & _ & Hv & Hf & Hk)|(Hc & Ho)];
      rewrite uploaded_Orders in *; [left|right]; done.
Qed.

(** The answer 201 comes with the new row at the end of the table. *)
Lemma post_orders_created (env : Env) (r : CreateReq) (w : World) :
  code (response_of (post_orders env r w)) = 201 →
  Orders (world_of (post_orders env r w)) =
    Orders w ++ [new_row r (today env) (stored_name env r)] ∧
  valid r = true.
Proof.
  intros Hc.
  destruct (post_orders_rows env r w) as [(_ & Ho & _ & Hv & _)|(Hc' & _)].
  - done.
  - rewrite Hc in Hc'. set_solver.
Qed.

Lemma valid_fields (r : CreateReq) :
  valid r = true →
  ∃ bn dd, body_bill_number r = Some bn ∧ body_delivery_date r = Some dd ∧
           bn ≠ "" ∧ dd ≠ "".
Proof.
  unfold valid. intros [Hb Hd]%andb_true_iff.
  apply truthy_true in Hb as (bn & Hb & ?).
  apply truthy_true in Hd as (dd & Hd & ?).
  by exists bn, dd.
Qed.

(** ** Creation *)

Lemma upload_result_NoImage (env : Env) (r : CreateReq) :
  upload_result env r = NoImage ↔ style_image r = None.
Proof.
  unfold upload_result. destruct (style_image r); [|done].
  by destruct (writable env _).
Qed.

Lemma upload_result_Stored (env : Env) (r : CreateReq) (file : ReqFile) :
  upload_result env r = Stored file →
  ∃ f, style_image r = Some f ∧
       file = mkReqFile (filename env r f)
                        (path_join "uploads/" (filename env r f)).
Proof.
  unfold upload_result. destruct (style_image r) as [f|]; [|done].
  destruct (writable env _); [|done]. intros [= <-]. by exists f.
Qed.

Lemma stored_name_filename (env : Env) (r : CreateReq) :
  upload_result env r ≠ WriteFailed →
  stored_name env r = filename env r <$> style_image r.
Proof.
  unfold stored_name, stored_file, upload_result.
  destruct (style_image r); [|done]. by destruct (writable env _).
Qed.

(** What the completion of requested unlinks does to the files. *)
Lemma settle_all_files (n : nat) (w : World) :
  files (settle [] n w) = files w ∖ list_to_set (take n (pending w)) ∧
  pending (settle [] n w) = drop n (pending w) ∧
  Orders (settle [] n w) = Orders w.
Proof.
  revert w. induction n as [|n IH]; intros w; simpl.
  - rewrite drop_0. split; [set_solver | done].
  - destruct (IH (unlink_done true w)) as (-> & -> & ->).
    unfold unlink_done. destruct (pending w) as [|p rest] eqn:Hp; simpl.
    + rewrite Hp. destruct n; simpl; (split; [set_solver | done]).
    + split; [set_solver | done].
Qed.

Lemma drain_files (w : World) :
  files (drain w) = files w ∖ list_to_set (pending w).
Proof.
  unfold drain. destruct (settle_all_files (length (pending w)) w) as [-> _].
  by rewrite firstn_all.
Qed.

Lemma drain_removes (w : World) (p : string) :
  p ∈ pending w → p ∉ files (drain w).
Proof. rewrite drain_files. set_solver. Qed.

(** An unlink that fails leaves its file where it is. *)
Lemma unlink_failed_keeps_files (w : World) :
  files (unlink_done false w) = files w.
Proof. unfold unlink_done. by destruct (pending w). Qed.

(** C4, as stated, fails. The request [req_nokey] is answered 400 while its
    image is still in [uploads/]: the unlink has only been requested.
    The request [req_slash] lacks the delivery date and is answered 500:
    its image cannot be written and the callback is not reached. *)
Lemma missing_field_counterexample :
  let res := post_orders env_a req_nokey world_0 in
  code (response_of res) = 400 ∧
  "temp-style-1735812000000.jpg" ∈ uploads (world_of res) ∧
  code (response_of (post_orders env_a req_slash world_0)) = 500.
Proof.
  split; [reflexivity|]. split; [|reflexivity].
  eapply bool_decide_unpack. vm_compute. exact I.
Qed.

(** C4, amended: a creation request whose bill number or delivery date is
    missing or empty never inserts a row (the INSERT is not sent). When it
    carries no image it is answered 400 and nothing changes. When its image
    was stored it is answered 400, the unlink of the stored file is
    requested before the answer, and the file is gone once the requested
    unlinks have completed with success (an unlink that fails leaves it).
    When its image could not be written it is answered 500 by the upload
    middleware and nothing changes. *)
Theorem create_missing_field_rejected (env : Env) (r : CreateReq) (w : World) :
  body_bill_number r = None ∨ body_bill_number r = Some "" ∨
  body_delivery_date r = None ∨ body_delivery_date r = Some "" →
  let res := post_orders env r w in
  Orders (world_of res) = Orders w ∧
  (∀ o, Insert o ∉ steps_of res) ∧
  match upload_result env r with
  | NoImage =>
      code (response_of res) = 400 ∧ world_of res = w
  | Stored file =>
      code (response_of res) = 400 ∧
      steps_of res = [Persist (file_filename file); Validate false;
                      Unlink (file_path file); Respond 400] ∧
      files (world_of res) = {[file_path file]} ∪ files w ∧
      pending (world_of res) = pending w ++ [file_path file] ∧
      (file_path file ∉ files (drain (world_of res))) ∧
      (pending w = [] →
       file_path file ∈ files (unlink_done false (world_of res)))
  | WriteFailed =>
      code (response_of res) = 500 ∧ world_of res = w ∧
      steps_of res = [Respond 500]
  end.
Proof.
  intros Hbad%valid_false res. subst res.
  destruct (upload_result env r) as [|file|] eqn:Hu.
  - assert (upload_result env r ≠ WriteFailed) as Hok by congruence.
    destruct (post_orders_callback env r w Hok) as (-> & -> & ->).
    unfold persisted, uploaded, stored_file. rewrite Hu.
    rewrite (create_order_invalid _ _ _ _ Hbad).
    unfold response_of, world_of, steps_of. simpl.
    split; [done|]. split; [set_solver | done].
  - assert (upload_result env r ≠ WriteFailed) as Hok by congruence.
    destruct (post_orders_callback env r w Hok) as (-> & -> & ->).
    unfold persisted, uploaded, stored_file. rewrite Hu.
    rewrite (create_order_invalid _ _ _ _ Hbad).
    unfold response_of, world_of, steps_of. simpl.
    split; [done|]. split; [set_solver|]. repeat split.
    + apply drain_removes. simpl. set_solver.
    + intros Hp. unfold unlink_done. simpl. rewrite Hp. simpl. set_solver.
  - rewrite post_orders_write_failed by done.
    unfold response_of, world_of, steps_of. simpl.
    split; [done|]. split; [set_solver | done].
Qed.

Lemma create_missing_field_rejected_witness :
  code (response_of (post_orders env_a req_nokey world_0)) = 400 ∧
  pending (world_of (post_orders env_a req_nokey world_0))
    = ["uploads/temp-style-1735812000000.jpg"] ∧
  ("uploads/temp-style-1735812000000.jpg"
     ∉ files (drain (world_of (post_orders env_a req_nokey world_0)))).
Proof.
  destruct (create_missing_field_rejected env_a req_nokey world_0
              (or_introl eq_refl)) as (_ & _ & Hc & _ & _ & Hp & Hgone & _).
  split; [exact Hc|]. split; [exact Hp | exact Hgone].
Defined.

(** C9: whenever the creation route answers with an error (400, 409 or
    500, the only codes it has besides 201), the rows of the table are
    exactly those it had before the request. *)
Theorem create_error_keeps_rows (env : Env) (r : CreateReq) (w : World) :
  let res := post_orders env r w in
  (code (response_of res) = 201 ∨ code (response_of res) ∈ [400; 409; 500]) ∧
  (code (response_of res) ≠ 201 → Orders (world_of res) = Orders w).
Proof.
  intros res. subst res.
  destruct (post_orders_rows env r w) as [(Hc & _)|(Hc & Ho)].
  - split; [by left | done].
  - split; [by right | done].
Qed.

Lemma create_error_keeps_rows_witness :
  Orders (world_of (post_orders env_f req_b101 world_1)) = Orders world_1.
Proof.
  apply (proj2 (create_error_keeps_rows env_f req_b101 world_1)).
  vm_compute. discriminate.
Defined.

(** C6: a row created by the creation route has status Pending, the
    server's current date as bill date, the empty string as notes when the
    notes field is omitted, customer name N/A and amount 0.00 whatever the
    request says, and a NULL image path when no image is attached. *)
Theorem created_row_fields (env : Env) (r : CreateReq) (w : World) :
  let res := post_orders env r w in
  code (response_of res) = 201 →
  ∃ o, Orders (world_of res) = Orders w ++ [o] ∧
       Some (bill_number o) = body_bill_number r ∧
       Some (delivery_date o) = body_delivery_date r ∧
       status o = Pending ∧
       bill_date o = today env ∧
       (body_notes r = None → notes o = "") ∧
       (∀ n, body_notes r = Some n → notes o = n) ∧
       customer_name o = "N/A" ∧
       total_amount o = 0 ∧
       (style_image r = None → image_path o = None) ∧
       (∀ f, style_image r = Some f → image_path o = Some (filename env r f)) ∧
       completion_date o = None.
Proof.
  intros res Hc. subst res.
  destruct (post_orders_rows env r w)
    as [(_ & Ho & Hu & Hv & _)|(Hc' & _)].
  2: { rewrite Hc in Hc'. set_solver. }
  eexists. split; [exact Ho|].
  apply valid_fields in Hv as (b & d & Hb & Hd & _ & _).
  unfold new_row. rewrite (stored_name_filename env r Hu). simpl.
  rewrite Hb, Hd. simpl.
  repeat split; try done.
  - by intros ->.
  - intros n ->. simpl. destruct (String.eqb n "") eqn:E; [|done].
    by apply String.eqb_eq in E.
  - by intros ->.
  - by intros f ->.
Qed.

Lemma created_row_fields_witness :
  ∃ o, Orders world_1 = [o] ∧ status o = Pending ∧ notes o = "" ∧
       bill_date o = "2025-01-02" ∧ customer_name o = "N/A" ∧
       total_amount o = 0.
Proof.
  destruct (created_row_fields env_a req_b100 world_0 eq_refl)
    as (o & Ho & _ & _ & Hs & Hd & Hn & _ & Hcn & Ht & _).
  exists o. repeat split; try done. by apply Hn.
Defined.




(** ** Two creations with one bill number *)

Lemma key_taken_app (bn : string) (t : list Order) (o : Order) :
  bill_number o = bn → key_taken bn (t ++ [o]) = true.
Proof.
  intros <-. unfold key_taken. apply bool_decide_eq_true.
  rewrite fmap_app. set_solver.
Qed.

(** Two valid requests with the same, so far unused, bill number, the store
    at work and the uploads stored: the first is answered 201 and the
    second 409 without a second row. The unlink of the second request's
    image is requested when the pool rejects the INSERT with
    [ER_DUP_ENTRY]; nothing is requested when the pool resolves with
    [affectedRows = 0]. *)
Lemma create_twice (env1 env2 : Env) (r1 r2 : CreateReq) (w : World) :
  valid r1 = true → valid r2 = true →
  body_bill_number r1 = body_bill_number r2 →
  store_fault env1 = None → store_fault env2 = None →
  upload_result env1 r1 ≠ WriteFailed → upload_result env2 r2 ≠ WriteFailed →
  key_taken (default "" (body_bill_number r1)) (Orders w) = false →
  let res1 := post_orders env1 r1 w in
  let res2 := post_orders env2 r2 (world_of res1) in
  code (response_of res1) = 201 ∧
  code (response_of res2) = 409 ∧
  Orders (world_of res1) =
    Orders w ++ [new_row r1 (today env1) (stored_name env1 r1)] ∧
  files (world_of res1) = files (uploaded env1 r1 w) ∧
  Orders (world_of res2) = Orders (world_of res1) ∧
  files (world_of res2) = files (uploaded env2 r2 (world_of res1)) ∧
  pending (world_of res2) =
    pending w ++
    match dup_report env2, stored_file env2 r2 with
    | RaisesDupEntry, Some file => [file_path file]
    | _, _ => []
    end.
Proof.
  intros Hv1 Hv2 Hbn Hf1 Hf2 Hu1 Hu2 Hfree res1 res2.
  assert (world_of res1 =
          mkWorld (Orders w ++ [new_row r1 (today env1) (stored_name env1 r1)])
                  (files (uploaded env1 r1 w)) (pending w)
          ∧ code (response_of res1) = 201) as [Hw1 Hc1].
  { subst res1 res2.
    destruct (post_orders_callback env1 r1 w Hu1) as (-> & -> & _).
    rewrite (create_order_fresh env1 r1);
      [|done|done|by rewrite uploaded_Orders].
    unfold response_of, world_of. simpl. rewrite uploaded_Orders.
    split; [|done]. f_equal. unfold uploaded.
    by destruct (stored_file env1 r1). }
  subst res2. rewrite Hw1. set (w1 := mkWorld (_ ++ _) _ _).
  destruct (post_orders_callback env2 r2 w1 Hu2) as (-> & -> & _).
  assert (key_taken (default "" (body_bill_number r2))
            (Orders (uploaded env2 r2 w1)) = true) as Htaken.
  { rewrite uploaded_Orders. subst w1. simpl.
    apply key_taken_app. simpl. by rewrite Hbn. }
  assert (pending (uploaded env2 r2 w1) = pending w) as Hp.
  { unfold uploaded. subst w1. by destruct (stored_file env2 r2). }
  split; [done|].
  destruct (dup_report env2) eqn:Hr.
  - rewrite (create_order_dup_raised env2 r2); [|done..].
    unfold response_of, world_of. simpl.
    destruct (stored_file env2 r2) eqn:Hs; simpl;
      rewrite ?uploaded_Orders, ?Hp, ?app_nil_r; done.
  - rewrite (create_order_dup_zero_rows env2 r2); [|done..].
    unfold response_of, world_of. simpl.
    destruct (stored_file env2 r2) eqn:Hs; simpl;
      rewrite ?uploaded_Orders, ?Hp, ?app_nil_r; done.
Qed.

(** C1, the code at the failing input: [B100] is taken in [world_1]; a
    second creation of [B100] with an image, on a pool that reports the
    duplicate by [affectedRows = 0], is answered 409 by lines 72-74, which
    return without the unlink of the [catch] block: the image of the failed
    attempt is still in [uploads/]. *)
Theorem duplicate_zero_rows_keeps_artifact :
  let res := post_orders env_z req_b100 world_1 in
  code (response_of res) = 409 ∧
  Orders (world_of res) = Orders world_1 ∧
  "B100-style-1735812000555.png" ∈ uploads (world_of res) ∧
  steps_of res =
    [Persist "B100-style-1735812000555.png"; Validate true;
     Insert (new_row req_b100 "2025-01-02"
               (Some "B100-style-1735812000555.png"));
     Respond 409].
Proof.
  split; [reflexivity|]. split; [reflexivity|]. split; [|reflexivity].
  eapply bool_decide_unpack. vm_compute. exact I.
Qed.

(** No unlink was requested for it, so the image stays for good. *)
Lemma duplicate_zero_rows_artifact_stays :
  let res := post_orders env_z req_b100 world_1 in
  pending (world_of res) = [] ∧
  "B100-style-1735812000555.png" ∈ uploads (drain (world_of res)).
Proof.
  split; [reflexivity|]. eapply bool_decide_unpack. vm_compute. exact I.
Qed.

(** The same second request on a pool that rejects with [ER_DUP_ENTRY]
    reaches the [catch] block, which requests the unlink of the image; the
    image is gone when the unlink has completed. *)
Lemma duplicate_raised_unlinks_artifact :
  let res := post_orders env_z' req_b100 world_1 in
  code (response_of res) = 409 ∧
  ("B100-style-1735812000555.png" ∉ uploads (drain (world_of res))) ∧
  steps_of res =
    [Persist "B100-style-1735812000555.png"; Validate true;
     Insert (new_row req_b100 "2025-01-02"
               (Some "B100-style-1735812000555.png"));
     Unlink "uploads/B100-style-1735812000555.png"; Respond 409].
Proof.
  split; [reflexivity|]. split; [|reflexivity].
  eapply bool_decide_unpack. vm_compute. exact I.
Qed.

(** ** Completion *)

Section Completion.
Context (now bn : string).

Lemma eligible_open (o : Order) :
  eligible bn o = true ↔ open_order bn o.
Proof.
  unfold eligible, open_order.
  rewrite andb_true_iff, negb_true_iff, bool_decide_eq_true,
    bool_decide_eq_false. done.
Qed.

Lemma eligible_complete_row (o : Order) :
  eligible bn (complete_row now bn o) = false.
Proof.
  unfold complete_row. destruct (eligible bn o) eqn:E; [|done].
  unfold eligible, set_complete. simpl. by rewrite andb_false_r.
Qed.

Lemma no_eligible_filter (t : list Order) :
  length (filter (λ o, eligible bn o = true) t) = 0%nat ↔
  ¬ ∃ o, o ∈ t ∧ open_order bn o.
Proof.
  rewrite length_zero_iff_nil. split.
  - intros Hnil (o & Ho & Hopen). apply eligible_open in Hopen.
    assert (o ∈ filter (λ o, eligible bn o = true) t) as Hin
      by (by apply list_elem_of_filter).
    rewrite Hnil in Hin. by apply not_elem_of_nil in Hin.
  - intros Hno. induction t as [|o t IH]; [done|].
    rewrite filter_cons. destruct (decide (eligible bn o = true)) as [E|E].
    + exfalso. apply Hno. exists o. split; [set_solver|by apply eligible_open].
    + apply IH. intros (o' & Ho' & Hopen). apply Hno. exists o'.
      split; [set_solver|done].
Qed.

Lemma some_eligible_filter (t : list Order) :
  length (filter (λ o, eligible bn o = true) t) ≠ 0%nat →
  ∃ o, o ∈ t ∧ open_order bn o.
Proof.
  destruct (filter _ t) as [|o l] eqn:E; [done|]. intros _.
  assert (o ∈ filter (λ o, eligible bn o = true) t) as Hin
    by (rewrite E; apply list_elem_of_here).
  apply list_elem_of_filter in Hin as [He Hin].
  exists o. split; [done | by apply eligible_open].
Qed.

Lemma complete_row_id (t : list Order) :
  (¬ ∃ o, o ∈ t ∧ open_order bn o) → complete_row now bn <$> t = t.
Proof.
  intros Hno. induction t as [|o t IH]; [done|].
  rewrite fmap_cons. f_equal.
  - unfold complete_row. destruct (eligible bn o) eqn:E; [|done].
    exfalso. apply Hno. exists o. split; [set_solver|by apply eligible_open].
  - apply IH. intros (o' & Ho' & Hopen). apply Hno. exists o'.
    split; [set_solver|done].
Qed.

Lemma no_open_after_complete (t : list Order) :
  ¬ ∃ o, o ∈ complete_row now bn <$> t ∧ open_order bn o.
Proof.
  intros (o & Ho & Hopen). apply list_elem_of_fmap in Ho as (o0 & -> & _).
  apply eligible_open in Hopen. by rewrite eligible_complete_row in Hopen.
Qed.

End Completion.

(** The result of the completion route when the store is at work. *)
Lemma put_complete_run (env : Env) (bn : string) (w : World) :
  store_fault env = None →
  put_complete env bn w =
  let n := length (filter (λ o, eligible bn o = true) (Orders w)) in
  (if (n =? 0)%nat
   then mkResponse 404 (JMessage "Order not found or status not updated.")
   else mkResponse 200 (JMessage ("Bill " +:+ bn +:+
                          " marked as Complete and ready for pickup.")),
   mkWorld (complete_row (sql_now env) bn <$> Orders w) (files w) (pending w),
   [Update bn; Respond (if (n =? 0)%nat then 404 else 200)]).
Proof.
  intros Hf. unfold put_complete, sql_complete, bind, respond. rewrite Hf.
  simpl. by destruct (_ =? _)%nat.
Qed.

(** The result of the completion route when the store rejects the UPDATE. *)
Lemma put_complete_fault (env : Env) (bn c : string) (w : World) :
  store_fault env = Some c →
  put_complete env bn w =
  (mkResponse 500 (JError "Failed to update order status."), w,
   [Update bn; Respond 500]).
Proof.
  intros Hf. unfold put_complete, sql_complete, bind, respond. by rewrite Hf.
Qed.

(** Without an open order of that number the route answers 404 and changes
    nothing. *)
Lemma put_complete_none (env : Env) (bn : string) (w : World) :
  store_fault env = None →
  (¬ ∃ o, o ∈ Orders w ∧ open_order bn o) →
  code (response_of (put_complete env bn w)) = 404 ∧
  world_of (put_complete env bn w) = w.
Proof.
  intros Hf Hno. rewrite put_complete_run by done.
  unfold response_of, world_of. simpl.
  rewrite (proj2 (no_eligible_filter bn (Orders w)) Hno). simpl.
  rewrite complete_row_id by done. by destruct w.
Qed.

(** What the completion does to one row. *)
Lemma complete_row_spec (now bn : string) (o : Order) :
  (open_order bn o ∧
   complete_row now bn o = set_complete now o)
  ∨ (¬ open_order bn o ∧ complete_row now bn o = o).
Proof.
  unfold complete_row. destruct (eligible bn o) eqn:E.
  - left. split; [by apply eligible_open | done].
  - right. split; [|done]. rewrite <- eligible_open. by rewrite E.
Qed.

(** C2: with the store at work, the completion route sets status to
    Complete and the completion date to the current time exactly on the
    orders that carry the bill number and are not Complete yet, and answers
    200 exactly when there is such an order; otherwise it updates nothing
    and answers 404. A further completion of the same bill number is
    always answered 404 and changes nothing. *)
Theorem complete_order_iff_open (env : Env) (bn : string) (w : World) :
  store_fault env = None →
  let res := put_complete env bn w in
  (code (response_of res) = 200 ↔
     ∃ o, o ∈ Orders w ∧ bill_number o = bn ∧ status o ≠ Complete) ∧
  (code (response_of res) ≠ 200 →
     code (response_of res) = 404 ∧ world_of res = w) ∧
  Forall2 (λ o o',
      (bill_number o = bn ∧ status o ≠ Complete ∧
       status o' = Complete ∧ completion_date o' = Some (sql_now env))
      ∨ (¬ (bill_number o = bn ∧ status o ≠ Complete) ∧ o' = o))
    (Orders w) (Orders (world_of res)) ∧
  ∀ env2, store_fault env2 = None →
    code (response_of (put_complete env2 bn (world_of res))) = 404 ∧
    world_of (put_complete env2 bn (world_of res)) = world_of res.
Proof.
  intros Hf res.
  assert (Hiff : code (response_of res) = 200 ↔ ∃ o, o ∈ Orders w ∧ open_order bn o).
  { subst res. rewrite put_complete_run by done. unfold response_of. simpl.
    destruct (_ =? _)%nat eqn:E; simpl.
    - apply Nat.eqb_eq, no_eligible_filter in E. split; [done|tauto].
    - apply Nat.eqb_neq, some_eligible_filter in E. done. }
  split; [exact Hiff|]. split; [|split].
  - intros Hne. apply put_complete_none; [done|]. by rewrite <- Hiff.
  - subst res. rewrite put_complete_run by done. unfold world_of. simpl.
    apply Forall2_fmap_r, Forall_Forall2_diag, Forall_forall. intros o _.
    unfold compose.
    destruct (complete_row_spec (sql_now env) bn o) as [[[? ?] ->]|[? ->]];
      [left|right]; done.
  - intros env2 Hf2. apply put_complete_none; [done|].
    subst res. rewrite put_complete_run by done. unfold world_of. simpl.
    apply no_open_after_complete.
Qed.

Lemma complete_order_iff_open_witness :
  code (response_of (put_complete env_a "B100" world_2)) = 200 ∧
  code (response_of (put_complete env_z "B100"
          (world_of (put_complete env_a "B100" world_2)))) = 404.
Proof.
  destruct (complete_order_iff_open env_a "B100" world_2 eq_refl)
    as (Hiff & _ & _ & Hagain).
  split.
  - apply Hiff. eexists. split; [apply list_elem_of_here|]. by split.
  - exact (proj1 (Hagain env_z eq_refl)).
Defined.

(** ** Nothing is deleted *)

Lemma complete_row_bill_number (now bn : string) (o : Order) :
  bill_number (complete_row now bn o) = bill_number o.
Proof. unfold complete_row. by destruct (eligible bn o). Qed.

Lemma put_complete_bill_numbers (env : Env) (bn : string) (w : World) :
  bill_number <$> Orders (world_of (put_complete env bn w)) =
  bill_number <$> Orders w.
Proof.
  destruct (store_fault env) as [c|] eqn:Hf.
  - by rewrite (put_complete_fault env bn c).
  - rewrite put_complete_run by done. unfold world_of. simpl.
    rewrite <- list_fmap_compose. apply list_fmap_ext.
    intros i o _. apply complete_row_bill_number.
Qed.

Lemma get_pending_world (env : Env) (s e : option string) (w : World) :
  world_of (get_pending env s e w) = w.
Proof.
  unfold get_pending, sql_select_pending, bind, respond, world_of.
  by destruct (store_fault env).
Qed.

Lemma get_orders_world (env : Env) (w : World) :
  world_of (get_orders env w) = w.
Proof.
  unfold get_orders, sql_select_all, bind, respond, world_of.
  by destruct (store_fault env).
Qed.

(** Every request leaves the bill numbers of the table in place, in their
    order; a creation may add one at the end. *)
Lemma handle_keeps_bill_numbers (env : Env) (rq : Request) (w : World) :
  (bill_number <$> Orders w) `prefix_of`
  (bill_number <$> Orders (world_of (handle env rq w))).
Proof.
  destruct rq as [r|bn|s e|]; simpl.
  - destruct (post_orders_rows env r w) as [(_ & Ho & _)|(_ & Ho)]; rewrite Ho.
    + rewrite fmap_app. by apply prefix_app_r.
    + done.
  - by rewrite put_complete_bill_numbers.
  - by rewrite get_pending_world.
  - by rewrite get_orders_world.
Qed.

Lemma run_keeps_bill_numbers (rqs : list (Env * Request)) (w : World) :
  (bill_number <$> Orders w) `prefix_of` (bill_number <$> Orders (run rqs w)).
Proof.
  revert w. induction rqs as [|[env rq] rqs IH]; intros w; simpl; [done|].
  etrans; [apply handle_keeps_bill_numbers | apply IH].
Qed.

(** C8: a completion answered 200 sets the status of the open orders of
    that bill number to Complete and their completion date to the current
    time, and there is such an order; whatever the answer, a completion
    changes no other column (bill number, bill date, delivery date, notes
    and image path of every row stay as they were) and no row with another
    bill number. No request, and no sequence of requests, removes an order
    from the table. *)
Theorem complete_order_frame (env : Env) (bn : string) (w : World) :
  let res := put_complete env bn w in
  Forall2 (λ o o',
      bill_number o' = bill_number o ∧ bill_date o' = bill_date o ∧
      delivery_date o' = delivery_date o ∧ notes o' = notes o ∧
      image_path o' = image_path o ∧
      customer_name o' = customer_name o ∧ total_amount o' = total_amount o ∧
      (o' = o ∨ status o' = Complete ∧ completion_date o' = Some (sql_now env)) ∧
      (bill_number o ≠ bn → o' = o) ∧
      (code (response_of res) = 200 →
       bill_number o = bn → status o ≠ Complete →
       status o' = Complete ∧ completion_date o' = Some (sql_now env)))
    (Orders w) (Orders (world_of res)) ∧
  (code (response_of res) = 200 →
   ∃ i o o', Orders w !! i = Some o ∧ Orders (world_of res) !! i = Some o' ∧
             bill_number o = bn ∧ status o ≠ Complete ∧
             status o' = Complete ∧ completion_date o' = Some (sql_now env)) ∧
  uploads (world_of res) = uploads w ∧
  (∀ env' rq w',
     (bill_number <$> Orders w') `prefix_of`
     (bill_number <$> Orders (world_of (handle env' rq w')))) ∧
  (∀ rqs w',
     (bill_number <$> Orders w') `prefix_of`
     (bill_number <$> Orders (run rqs w'))).
Proof.
  intros res. split; [|split; [|split; [|split]]].
  - subst res. destruct (store_fault env) as [c|] eqn:Hf.
    + rewrite (put_complete_fault env bn c) by done.
      unfold world_of, response_of. simpl.
      apply Forall_Forall2_diag, Forall_forall. intros o _.
      repeat split; auto; done.
    + rewrite put_complete_run by done. unfold world_of, response_of. simpl.
      apply Forall2_fmap_r, Forall_Forall2_diag, Forall_forall. intros o _.
      unfold compose.
      destruct (complete_row_spec (sql_now env) bn o) as [[[? ?] ->]|[Hn ->]].
      * repeat split; simpl; auto; done.
      * repeat split; auto; try done; by destruct Hn.
  - subst res. intros Hc. destruct (store_fault env) as [c|] eqn:Hf.
    { by rewrite (put_complete_fault env bn c) in Hc. }
    rewrite put_complete_run in Hc |- * by done.
    unfold response_of in Hc. unfold world_of. simpl in *.
    destruct (_ =? _)%nat eqn:E; [done|].
    apply Nat.eqb_neq, some_eligible_filter in E as (o & Hin & Hopen).
    apply list_elem_of_lookup in Hin as [i Hi].
    exists i, o, (set_complete (sql_now env) o).
    split; [done|]. split.
    + rewrite list_lookup_fmap, Hi. simpl. f_equal.
      destruct (complete_row_spec (sql_now env) bn o) as [[_ ?]|[? _]]; done.
    + destruct Hopen. done.
  - subst res. unfold uploads. f_equal.
    destruct (store_fault env) as [c|] eqn:Hf.
    + by rewrite (put_complete_fault env bn c).
    + by rewrite put_complete_run.
  - apply handle_keeps_bill_numbers.
  - apply run_keeps_bill_numbers.
Qed.

Lemma complete_order_frame_witness :
  Forall2 (λ o o', bill_number o ≠ "B100" → o' = o)
    (Orders world_2) (Orders (world_of (put_complete env_a "B100" world_2))) ∧
  ∃ i o o', Orders world_2 !! i = Some o ∧
            Orders (world_of (put_complete env_a "B100" world_2)) !! i = Some o' ∧
            status o ≠ Complete ∧ status o' = Complete ∧
            completion_date o' = Some "2025-01-02 10:00:00".
Proof.
  destruct (complete_order_frame env_a "B100" world_2) as (Hall & Hone & _).
  split.
  - eapply Forall2_impl; [exact Hall|]. intros o o' H. apply H.
  - destruct (Hone eq_refl) as (i & o & o' & Hi & Hi' & _ & Hs & Hs' & Hd).
    exists i, o, o'. repeat split; assumption.
Defined.

(** ** The two listings *)

#[global] Instance by_delivery_asc_total : Total by_delivery_asc.
Proof. intros a b. apply (total String.le). Qed.

#[global] Instance by_bill_desc_total : Total by_bill_desc.
Proof. intros a b. apply (total String.le). Qed.

Lemma bound_or_default (q : option string) (dflt b : string) :
  bound q dflt b → or_default q dflt = b.
Proof.
  intros [[[-> | ->] ->]|[-> Hb]]; [done..|]. by apply or_default_truthy.
Qed.

Lemma is_pending_in_queue (lo hi : string) (o : Order) :
  is_pending lo hi o = true ↔ in_queue lo hi o.
Proof.
  unfold is_pending, between, in_queue.
  rewrite !andb_true_iff, orb_true_iff, !bool_decide_eq_true. done.
Qed.

Lemma filter_is_pending (lo hi : string) (t : list Order) :
  filter (λ o, is_pending lo hi o = true) t = filter (in_queue lo hi) t.
Proof. apply list_filter_iff. intros o. apply is_pending_in_queue. Qed.

(** C3: with the store at work, the pending listing answers with exactly
    the orders whose status is Pending or InProgress and whose delivery
    date lies in [lo, hi], both ends included, where an omitted start date
    stands for 2000-01-01 and an omitted end date for 2100-01-01; the rows
    come by ascending delivery date, each projected to bill number,
    delivery date, notes, status and image path. The stores are not
    changed. *)
Theorem list_pending_spec (env : Env) (q_start q_end : option string)
    (lo hi : string) (w : World) :
  store_fault env = None →
  bound q_start "2000-01-01" lo →
  bound q_end "2100-01-01" hi →
  ∃ rows,
    response_of (get_pending env q_start q_end w)
      = mkResponse 200 (JPending rows) ∧
    rows ≡ₚ (λ o, mkPendingRow (bill_number o) (delivery_date o) (notes o)
                               (status o) (image_path o))
            <$> filter (in_queue lo hi) (Orders w) ∧
    Sorted (λ a b, String.le (p_delivery_date a) (p_delivery_date b)) rows ∧
    world_of (get_pending env q_start q_end w) = w.
Proof.
  intros Hf Hlo Hhi.
  unfold get_pending, sql_select_pending, bind, respond, response_of, world_of.
  rewrite Hf, (bound_or_default _ _ _ Hlo), (bound_or_default _ _ _ Hhi).
  simpl. eexists. split; [reflexivity|]. split; [|split; [|done]].
  - rewrite filter_is_pending.
    by rewrite (merge_sort_Permutation by_delivery_asc).
  - apply (Sorted_fmap _ by_delivery_asc); [done|].
    apply (Sorted_merge_sort by_delivery_asc).
Qed.

Lemma list_pending_spec_witness :
  ∃ rows,
    response_of (get_pending env_a None (Some "2025-01-09") world_2)
      = mkResponse 200 (JPending rows) ∧
    rows ≡ₚ [mkPendingRow "B101" "2025-01-05" "two sleeves" Pending None].
Proof.
  destruct (list_pending_spec env_a None (Some "2025-01-09")
              "2000-01-01" "2025-01-09" world_2 eq_refl)
    as (rows & Hr & Hp & _).
  - left. split; [by left | done].
  - right. split; done.
  - exists rows. split; [exact Hr | exact Hp].
Defined.

Lemma get_orders_run (env : Env) (w : World) :
  store_fault env = None →
  get_orders env w =
  (mkResponse 200 (JOrders (history_row <$> merge_sort by_bill_desc (Orders w))),
   w, [Select; Respond 200]).
Proof.
  intros Hf. unfold get_orders, sql_select_all, bind, respond. by rewrite Hf.
Qed.

Lemma created_bill_number_stored (env : Env) (r : CreateReq) (w : World) :
  code (response_of (post_orders env r w)) = 201 →
  ∃ bn, body_bill_number r = Some bn ∧
        bn ∈ bill_number <$> Orders (world_of (post_orders env r w)).
Proof.
  intros Hc. destruct (post_orders_created env r w Hc) as [Ho Hv].
  apply valid_fields in Hv as (bn & dd & Hb & _).
  exists bn. split; [done|]. rewrite Ho, fmap_app. simpl. rewrite Hb.
  set_solver.
Qed.

(** C5: with the store at work, the full listing answers with every order
    of the table whatever its status, by descending bill number, each
    projected to bill number, delivery date, notes, status, completion date
    and image path. An order the creation route has just created is in the
    listing, as a Pending order, and its bill number stays in the listing
    after any further requests. *)
Theorem list_all_spec (env : Env) (w : World) :
  store_fault env = None →
  ∃ rows,
    response_of (get_orders env w) = mkResponse 200 (JOrders rows) ∧
    rows ≡ₚ (λ o, mkHistoryRow (bill_number o) (delivery_date o) (notes o)
                               (status o) (completion_date o) (image_path o))
            <$> Orders w ∧
    Sorted (λ a b, String.le (h_bill_number b) (h_bill_number a)) rows ∧
    world_of (get_orders env w) = w ∧
    (∀ envc r w0,
       code (response_of (post_orders envc r w0)) = 201 →
       w = world_of (post_orders envc r w0) →
       ∃ row, row ∈ rows ∧ Some (h_bill_number row) = body_bill_number r ∧
              h_status row = Pending ∧ h_completion_date row = None) ∧
    (∀ envc r w0 rqs,
       code (response_of (post_orders envc r w0)) = 201 →
       w = run rqs (world_of (post_orders envc r w0)) →
       ∃ row, row ∈ rows ∧ Some (h_bill_number row) = body_bill_number r).
Proof.
  intros Hf. rewrite get_orders_run by done.
  eexists. split; [reflexivity|].
  assert (Hperm : history_row <$> merge_sort by_bill_desc (Orders w)
                  ≡ₚ history_row <$> Orders w)
    by (by rewrite (merge_sort_Permutation by_bill_desc)).
  split; [exact Hperm|]. split; [|split; [done|split]].
  - apply (Sorted_fmap _ by_bill_desc); [done|].
    apply (Sorted_merge_sort by_bill_desc).
  - intros envc r w0 Hc ->.
    destruct (post_orders_created envc r w0 Hc) as [Ho Hv].
    apply valid_fields in Hv as (bn & dd & Hb & _).
    exists (history_row (new_row r (today envc) (stored_name envc r))).
    rewrite Hperm, Ho, fmap_app. simpl. rewrite Hb.
    split; [set_solver|done].
  - intros envc r w0 rqs Hc ->.
    destruct (created_bill_number_stored envc r w0 Hc) as (bn & Hb & Hin).
    pose proof (run_keeps_bill_numbers rqs (world_of (post_orders envc r w0)))
      as [more Hmore].
    assert (bn ∈ bill_number <$> Orders (run rqs (world_of (post_orders envc r w0))))
      as Hin' by (rewrite Hmore; set_solver).
    apply list_elem_of_fmap in Hin' as (o & -> & Hin').
    exists (history_row o). rewrite Hperm. split; [|done].
    apply list_elem_of_fmap. by exists o.
Qed.

Lemma list_all_spec_witness :
  ∃ rows,
    response_of (get_orders env_a world_2) = mkResponse 200 (JOrders rows) ∧
    rows ≡ₚ [mkHistoryRow "B100" "2025-01-10" "" Pending None
               (Some "B100-style-1735812000000.png");
             mkHistoryRow "B101" "2025-01-05" "two sleeves" Pending None None]
    ∧ ∃ row, row ∈ rows ∧ h_bill_number row = "B101".
Proof.
  destruct (list_all_spec env_a world_2 eq_refl)
    as (rows & Hr & Hp & _ & _ & Hnew & _).
  exists rows. split; [exact Hr|]. split; [exact Hp|].
  destruct (Hnew env_a req_b101 world_1 eq_refl eq_refl)
    as (row & Hin & Hb & _).
  exists row. split; [exact Hin|]. by injection Hb.
Defined.

(** ** Start-up *)

(** C10: the start-up sequence asks the pool for a connection exactly once,
    and before anything else; the listener is started only after that
    connection was obtained, and when the connection is refused the
    listener is never started, so that no request is ever handled. *)
Theorem startup_connects_before_listening (connection : Reply unit) :
  let boot := startup connection in
  length (filter (λ s, s = GetConnection) boot) = 1%nat ∧
  (∀ i p, boot !! i = Some (Listen p) →
     boot !! 0%nat = Some GetConnection ∧ (0 < i)%nat ∧
     ∃ c, connection = Resolved c) ∧
  (∀ message, connection = Rejected message →
     (∀ p, Listen p ∉ boot) ∧ listening boot = false ∧
     ∀ env rq w, serve boot env rq w = None) ∧
  (∀ c, connection = Resolved c →
     listening boot = true ∧
     ∀ env rq w, serve boot env rq w = Some (handle env rq w)).
Proof.
  intros boot. subst boot. destruct connection as [c|message].
  - split; [done|]. split; [|split; [done|]].
    + intros i p Hi. split; [done|]. split; [|by exists c].
      destruct i; [done | lia].
    + intros c' _. split; done.
  - split; [done|]. split; [|split; [|done]].
    + intros i p Hi. destruct i as [|[|i]]; done.
    + intros m _.
      assert (Hno : ∀ p, Listen p ∉ startup (Rejected message))
        by (intros p; unfold startup; set_solver).
      assert (Hl : listening (startup (Rejected message)) = false)
        by apply bool_decide_eq_false, Hno.
      split; [exact Hno|]. split; [exact Hl|].
      intros env rq w. unfold serve. by rewrite Hl.
Qed.

Lemma startup_connects_before_listening_witness :
  (∀ p, Listen p ∉ startup (Rejected "connect ECONNREFUSED")) ∧
  serve (startup (Rejected "connect ECONNREFUSED")) env_a ListAll world_2 = None
  ∧ listening (startup (Resolved ())) = true.
Proof.
  destruct (startup_connects_before_listening (Rejected "connect ECONNREFUSED"))
    as (_ & _ & Hrej & _).
  destruct (Hrej _ eq_refl) as (Hno & _ & Hserve).
  split; [exact Hno|]. split; [apply Hserve|].
  destruct (startup_connects_before_listening (Resolved ()))
    as (_ & _ & _ & Hres).
  exact (proj1 (Hres () eq_refl)).
Defined.

(** * Further properties of the routes *)

(** ** The answers of the creation route *)

(** X1: the creation route answers 400 exactly for a request whose upload
    did not fail and that has a missing or empty required field; 201
    exactly for a valid request on a free bill number with the upload and
    the store at work; 409 exactly for a valid request, its upload not
    failed, whose bill number is taken or whose INSERT is rejected with
    ER_DUP_ENTRY; and 500 exactly when the upload fails or the INSERT of a
    valid request is rejected with another error code. *)
Theorem create_response_code (env : Env) (r : CreateReq) (w : World) :
  let c := code (response_of (post_orders env r w)) in
  let bn := default "" (body_bill_number r) in
  (c = 400 ↔ upload_result env r ≠ WriteFailed ∧ valid r = false) ∧
  (c = 201 ↔ upload_result env r ≠ WriteFailed ∧ valid r = true ∧
             store_fault env = None ∧ bn ∉ bill_number <$> Orders w) ∧
  (c = 409 ↔ upload_result env r ≠ WriteFailed ∧ valid r = true ∧
             (store_fault env = Some "ER_DUP_ENTRY" ∨
              (store_fault env = None ∧ bn ∈ bill_number <$> Orders w))) ∧
  (c = 500 ↔ upload_result env r = WriteFailed ∨
             (valid r = true ∧
              ∃ e, store_fault env = Some e ∧ e ≠ "ER_DUP_ENTRY")).
Proof.
  intros c bn. subst c bn.
  destruct (decide (upload_result env r = WriteFailed)) as [Hu|Hu].
  { rewrite post_orders_write_failed by done. unfold response_of. simpl.
    intuition (try done). }
  destruct (post_orders_callback env r w Hu) as (-> & _ & _).
  unfold valid, create_order, sql_insert, bind, emit, respond, response_of,
    cleanup, fs_unlink, ret.
  destruct (truthy (body_bill_number r)), (truthy (body_delivery_date r));
    simpl; try (by destruct (stored_file env r); simpl;
                   intuition (try done; naive_solver)).
  rewrite uploaded_Orders. unfold key_taken.
  destruct (store_fault env) as [e|]; simpl.
  - destruct (String.eqb e "ER_DUP_ENTRY") eqn:E.
    + apply String.eqb_eq in E as ->.
      destruct (stored_file env r); simpl; intuition (try done; naive_solver).
    + apply String.eqb_neq in E.
      destruct (stored_file env r); simpl;
        intuition (try done; try congruence; naive_solver).
  - case_bool_decide as Hk; simpl.
    + destruct (dup_report env); simpl;
        destruct (stored_file env r); simpl; intuition (try done; naive_solver).
    + intuition (try done; naive_solver).
Qed.

(** ** The image of a creation request *)

Lemma create_order_cleanup (env : Env) (r : CreateReq) (f : ReqFile)
    (w : World) :
  let res := create_order env r (Some f) w in
  files (world_of res) = files w ∧
  ((pending (world_of res) = pending w ∧
    (Unlink (file_path f) ∉ steps_of res) ∧
    (code (response_of res) = 201 ∨
     (valid r = true ∧ store_fault env = None ∧
      dup_report env = ReportsZeroRows)))
   ∨ (pending (world_of res) = pending w ++ [file_path f] ∧
      Unlink (file_path f) ∈ steps_of res ∧
      code (response_of res) ≠ 201 ∧
      ¬ (valid r = true ∧ store_fault env = None ∧
         dup_report env = ReportsZeroRows))).
Proof.
  unfold valid. create_cases env (Some f); cbn; (split; [done|]);
    first [ by left; split; [done|]; split; [set_solver|]; by left
          | by left; split; [done|]; split; [set_solver|]; by right
          | right; split; [done|]; split; [set_solver|]; split; [done|];
            intros (? & ? & ?); congruence ].
Qed.



Lemma post_orders_files_other (env : Env) (r : CreateReq) (w : World)
    (q : string) :
  Some q ≠ file_path <$> stored_file env r →
  (q ∈ files (world_of (post_orders env r w)) ↔ q ∈ files w) ∧
  (q ∈ pending (world_of (post_orders env r w)) → q ∈ pending w).
Proof.
  intros Hq.
  destruct (decide (upload_result env r = WriteFailed)) as [Hu|Hu].
  { by rewrite post_orders_write_failed. }
  destruct (post_orders_callback env r w Hu) as (_ & -> & _).
  unfold uploaded. destruct (stored_file env r) as [f|] eqn:Hs.
  - assert (q ≠ file_path f) by (simpl in Hq; congruence).
    destruct (create_order_cleanup env r f
                (mkWorld (Orders w) ({[file_path f]} ∪ files w) (pending w)))
      as [-> [(-> & _)|(-> & _)]]; simpl; set_solver.
  - assert (files (world_of (create_order env r None w)) = files w ∧
            pending (world_of (create_order env r None w)) = pending w)
      as [-> ->]; [|done].
    create_cases env (@None ReqFile); done.
Qed.

Lemma put_complete_files (env : Env) (bn : string) (w : World) :
  files (world_of (put_complete env bn w)) = files w ∧
  pending (world_of (put_complete env bn w)) = pending w.
Proof.
  destruct (store_fault env) as [c|] eqn:Hf.
  - by rewrite (put_complete_fault env bn c).
  - by rewrite put_complete_run.
Qed.

(** X3: a request changes no file other than the one at its own
    [req.file.path]: every other path holds a file afterwards exactly when
    it did before, no unlink of another path is requested, and this is
    still so when the requested unlinks have completed. The three routes
    without an upload change no file at all. *)
Theorem other_files_untouched (env : Env) (rq : Request) (w : World)
    (q : string) :
  Some q ≠ file_path <$> request_file env rq →
  let w' := world_of (handle env rq w) in
  (q ∈ files w' ↔ q ∈ files w) ∧
  (q ∈ pending w' → q ∈ pending w) ∧
  (q ∉ pending w → q ∈ files (drain w') ↔ q ∈ files w).
Proof.
  intros Hq w'.
  assert ((q ∈ files w' ↔ q ∈ files w) ∧ (q ∈ pending w' → q ∈ pending w))
    as [Hfiles Hpend].
  { subst w'. destruct rq as [r|bn|s e|]; simpl in *.
    - by apply post_orders_files_other.
    - by destruct (put_complete_files env bn w) as [-> ->].
    - by rewrite get_pending_world.
    - by rewrite get_orders_world. }
  split; [done|]. split; [done|]. intros Hno.
  rewrite drain_files. set_solver.
Qed.

Lemma other_files_untouched_witness :
  "uploads/B100-style-1735812000000.png"
    ∈ files (drain (world_of (handle env_a (CreateOrder req_nokey) world_1))).
Proof.
  apply (other_files_untouched env_a (CreateOrder req_nokey) world_1).
  - vm_compute. discriminate.
  - vm_compute. apply not_elem_of_nil.
  - eapply bool_decide_unpack. vm_compute. exact I.
Defined.

(** ** File names *)

Lemma string_length_app (s t : string) :
  String.length (s +:+ t) = (String.length s + String.length t)%nat.
Proof. induction s as [|a s IH]; simpl; [done | by rewrite IH]. Qed.

Lemma string_app_inj_r (s1 s2 t : string) : s1 +:+ t = s2 +:+ t → s1 = s2.
Proof.
  revert s2. induction s1 as [|a s1 IH]; intros [|b s2] H.
  - done.
  - apply (f_equal String.length) in H.
    rewrite !string_length_app in H. simpl in H. lia.
  - apply (f_equal String.length) in H.
    rewrite !string_length_app in H. simpl in H. lia.
  - injection H as -> H. f_equal. by apply IH.
Qed.

(** X4: for one bill number as the [filename] callback reads it (the field
    sent before the image, or none) and one file extension, two uploads get
    the same file name exactly when [Date.now()] gives them the same
    millisecond. *)
Theorem filename_same_iff_same_millisecond (env1 env2 : Env)
    (r1 r2 : CreateReq) (f1 f2 : File) :
  body_at_upload r1 = body_at_upload r2 →
  extension f1 = extension f2 →
  filename env1 r1 f1 = filename env2 r2 f2 ↔ date_now env1 = date_now env2.
Proof.
  intros Hb He. unfold filename. rewrite Hb, He. split.
  - intros H. apply (inj (String.app _)) in H.
    apply (inj (String.app _)) in H.
    apply string_app_inj_r in H. by apply (inj pretty) in H.
  - by intros ->.
Qed.

Lemma filename_same_iff_same_millisecond_witness :
  filename env_a req_b100 (mkFile ".png")
    ≠ filename env_z req_b100 (mkFile ".png").
Proof.
  intros H.
  apply (filename_same_iff_same_millisecond env_a env_z req_b100 req_b100
           (mkFile ".png") (mkFile ".png") eq_refl eq_refl) in H.
  vm_compute in H. discriminate.
Defined.

(** X5: when two creations with the same bill number, both sending it
    before the image, and the same file extension arrive in one
    millisecond, the second upload is written over the first image. Its
    INSERT is rejected with ER_DUP_ENTRY and the [catch] block requests the
    unlink of that path: once the unlink has completed, the order created
    by the first request has an image path that names no file. *)
Theorem same_millisecond_duplicate_unlinks_first_image
    (env1 env2 : Env) (r1 r2 : CreateReq) (f1 f2 : File) (w : World) :
  valid r1 = true → valid r2 = true →
  body_bill_number r1 = body_bill_number r2 →
  bill_number_first r1 = true → bill_number_first r2 = true →
  style_image r1 = Some f1 → style_image r2 = Some f2 →
  extension f1 = extension f2 →
  date_now env1 = date_now env2 →
  writable env1 (path_join "uploads/" (filename env1 r1 f1)) = true →
  writable env2 (path_join "uploads/" (filename env2 r2 f2)) = true →
  store_fault env1 = None → store_fault env2 = None →
  dup_report env2 = RaisesDupEntry →
  default "" (body_bill_number r1) ∉ bill_number <$> Orders w →
  let res1 := post_orders env1 r1 w in
  let res2 := post_orders env2 r2 (world_of res1) in
  code (response_of res1) = 201 ∧ code (response_of res2) = 409 ∧
  path_join "uploads/" (filename env1 r1 f1) ∈ files (world_of res2) ∧
  ∃ o, o ∈ Orders (drain (world_of res2)) ∧
       image_path o = Some (filename env1 r1 f1) ∧
       path_join "uploads/" (filename env1 r1 f1)
         ∉ files (drain (world_of res2)).
Proof.
  intros Hv1 Hv2 Hbn Hb1 Hb2 Hf1 Hf2 Hext Hnow Hw1 Hw2 Hs1 Hs2 Hdup Hfree
    res1 res2.
  assert (Hname : filename env2 r2 f2 = filename env1 r1 f1).
  { unfold filename, body_at_upload. by rewrite Hb1, Hb2, Hbn, Hext, Hnow. }
  assert (Hu1 : upload_result env1 r1 =
                Stored (mkReqFile (filename env1 r1 f1)
                          (path_join "uploads/" (filename env1 r1 f1))))
    by (unfold upload_result; by rewrite Hf1, Hw1).
  assert (Hu2 : upload_result env2 r2 =
                Stored (mkReqFile (filename env2 r2 f2)
                          (path_join "uploads/" (filename env2 r2 f2))))
    by (unfold upload_result; by rewrite Hf2, Hw2).
  assert (Hk : key_taken (default "" (body_bill_number r1)) (Orders w) = false)
    by (by apply bool_decide_eq_false).
  destruct (create_twice env1 env2 r1 r2 w Hv1 Hv2 Hbn Hs1 Hs2) as
    (Hc1 & Hc2 & Ho1 & _ & Ho2 & Hfiles & Hpend); [congruence..|done|].
  fold res1 in Hc1, Hc2, Ho1, Ho2, Hfiles, Hpend.
  fold res2 in Hc2, Ho2, Hfiles, Hpend.
  unfold stored_file in Hpend. rewrite Hu2, Hdup in Hpend. simpl in Hpend.
  unfold uploaded, stored_file in Hfiles. rewrite Hu2 in Hfiles.
  simpl in Hfiles. rewrite Hname in Hpend, Hfiles.
  split; [done|]. split; [done|]. split; [rewrite Hfiles; set_solver|].
  exists (new_row r1 (today env1) (stored_name env1 r1)). split; [|split].
  - unfold drain. destruct (settle_all_files (length (pending (world_of res2)))
                              (world_of res2)) as (_ & _ & ->).
    rewrite Ho2, Ho1. set_solver.
  - unfold stored_name, stored_file. by rewrite Hu1.
  - apply drain_removes. rewrite Hpend. set_solver.
Qed.

Lemma same_millisecond_duplicate_unlinks_first_image_witness :
  ∃ o, o ∈ Orders (drain (world_of (post_orders env_b req_b100_again world_1)))
       ∧ image_path o = Some "B100-style-1735812000000.png" ∧
       ("uploads/B100-style-1735812000000.png"
          ∉ files (drain (world_of (post_orders env_b req_b100_again world_1)))).
Proof.
  destruct (same_millisecond_duplicate_unlinks_first_image
              env_a env_b req_b100 req_b100_again (mkFile ".png") (mkFile ".png")
              world_0 eq_refl eq_refl eq_refl eq_refl eq_refl eq_refl eq_refl
              eq_refl eq_refl eq_refl eq_refl eq_refl eq_refl eq_refl)
    as (_ & _ & _ & H).
  - vm_compute. apply not_elem_of_nil.
  - exact H.
Defined.

(** ** The table over a run of requests *)

Lemma evolves_refl (o : Order) : evolves o o.
Proof. unfold evolves. repeat split; auto. Qed.

Lemma evolves_trans (o1 o2 o3 : Order) :
  evolves o1 o2 → evolves o2 o3 → evolves o1 o3.
Proof.
  unfold evolves.
  intros (? & ? & ? & ? & ? & ? & ? & H12) (? & ? & ? & ? & ? & ? & ? & H23).
  repeat split; try congruence.
  destruct H12 as [->|(? & ? & ?)], H23 as [->|(? & ? & ?)]; auto.
Qed.

Lemma evolves_complete_row (now bn : string) (o : Order) :
  evolves o (complete_row now bn o).
Proof.
  destruct (complete_row_spec now bn o) as [[[_ Hs] ->]|[_ ->]].
  - unfold evolves, set_complete. simpl. repeat split; auto.
  - apply evolves_refl.
Qed.

Lemma Forall2_evolves_refl (t : list Order) : Forall2 evolves t t.
Proof. apply Forall_Forall2_diag, Forall_forall. intros o _. apply evolves_refl. Qed.

Lemma later_table_refl (t : list Order) : later_table t t.
Proof.
  exists t, []. rewrite app_nil_r. split; [done|].
  split; [apply Forall2_evolves_refl | constructor].
Qed.

Lemma later_table_trans (t1 t2 t3 : list Order) :
  later_table t1 t2 → later_table t2 t3 → later_table t1 t3.
Proof.
  intros (old & new & -> & Hold & Hnew) (old' & new' & -> & Hold' & Hnew').
  apply Forall2_app_inv_l in Hold' as (oa & ob & Ha & Hb & ->).
  exists oa, (ob ++ new'). rewrite <- app_assoc. split; [done|]. split.
  - clear -Hold Ha. revert oa Ha.
    induction Hold as [|o o' t t' Ho _ IH]; intros oa Ha.
    + by apply Forall2_nil_inv_l in Ha as ->.
    + apply Forall2_cons_inv_l in Ha as (o'' & oa' & Ho' & Ha' & ->).
      constructor; [by eapply evolves_trans | by apply IH].
  - apply Forall_app. split; [|done].
    clear -Hnew Hb. revert ob Hb.
    induction Hnew as [|o' new (o & Hfr & Ho) _ IH]; intros ob Hb.
    + by apply Forall2_nil_inv_l in Hb as ->.
    + apply Forall2_cons_inv_l in Hb as (o'' & ob' & Ho' & Hb' & ->).
      constructor; [|by apply IH].
      exists o. split; [done | by eapply evolves_trans].
Qed.

Lemma fresh_new_row (r : CreateReq) (d : string) (file : option string) :
  fresh_row (new_row r d file).
Proof. by unfold fresh_row, new_row. Qed.

(** One request takes the table to a later state of itself. *)
Lemma handle_later_table (env : Env) (rq : Request) (w : World) :
  later_table (Orders w) (Orders (world_of (handle env rq w))).
Proof.
  destruct rq as [r|bn|s e|]; simpl.
  - destruct (post_orders_rows env r w) as [(_ & Ho & _)|(_ & Ho)]; rewrite Ho.
    + eexists _, _. split; [done|]. split; [apply Forall2_evolves_refl|].
      constructor; [|constructor]. eexists. split; [apply fresh_new_row|].
      apply evolves_refl.
    + apply later_table_refl.
  - destruct (store_fault env) as [c|] eqn:Hf.
    + rewrite (put_complete_fault env bn c) by done. apply later_table_refl.
    + rewrite put_complete_run by done. unfold world_of. simpl.
      eexists _, []. rewrite app_nil_r. split; [done|]. split; [|constructor].
      apply Forall2_fmap_r, Forall_Forall2_diag, Forall_forall. intros o _.
      apply evolves_complete_row.
  - rewrite get_pending_world. apply later_table_refl.
  - rewrite get_orders_world. apply later_table_refl.
Qed.

Lemma run_later_table (rqs : list (Env * Request)) (w : World) :
  later_table (Orders w) (Orders (run rqs w)).
Proof.
  revert w. induction rqs as [|[env rq] rqs IH]; intros w; simpl.
  - apply later_table_refl.
  - eapply later_table_trans; [apply handle_later_table | apply IH].
Qed.

Lemma later_table_lookup (t t' : list Order) (i : nat) (o : Order) :
  later_table t t' → t !! i = Some o →
  ∃ o', t' !! i = Some o' ∧ evolves o o'.
Proof.
  intros (old & new & -> & Hold & _) Hi.
  destruct (Forall2_lookup_l _ _ _ _ _ Hold Hi) as (o' & Hi' & Ho).
  exists o'. split; [|done]. by apply lookup_app_l_Some.
Qed.

Lemma later_table_elem_of (t t' : list Order) (o' : Order) :
  later_table t t' → o' ∈ t' →
  ∃ o, evolves o o' ∧ (o ∈ t ∨ fresh_row o).
Proof.
  intros (old & new & -> & Hold & Hnew) [Hin|Hin]%elem_of_app.
  - apply list_elem_of_lookup in Hin as [i Hi].
    destruct (Forall2_lookup_r _ _ _ _ _ Hold Hi) as (o & Ho & He).
    exists o. split; [done|]. left. by eapply list_elem_of_lookup_2.
  - rewrite Forall_forall in Hnew. destruct (Hnew _ Hin) as (o & Hfr & He).
    exists o. split; [done | by right].
Qed.

(** X6: Complete is final. An order that is Complete stays in its place in
    the table with all its columns, completion date included, whatever
    requests follow. *)
Theorem complete_order_never_changes (rqs : list (Env * Request)) (w : World)
    (i : nat) (o : Order) :
  Orders w !! i = Some o → status o = Complete →
  Orders (run rqs w) !! i = Some o.
Proof.
  intros Hi Hs.
  destruct (later_table_lookup _ _ i o (run_later_table rqs w) Hi)
    as (o' & Hi' & He).
  destruct He as (_ & _ & _ & _ & _ & _ & _ & [->|(Hn & _)]); [done|].
  by destruct Hn.
Qed.

(** X7: the columns bill number, bill date, delivery date, notes, image
    path, customer name and amount of an order are never rewritten: after
    any requests the order is in its place with these columns as they
    were. *)
Theorem order_columns_immutable (rqs : list (Env * Request)) (w : World)
    (i : nat) (o : Order) :
  Orders w !! i = Some o →
  ∃ o', Orders (run rqs w) !! i = Some o' ∧
        bill_number o' = bill_number o ∧ bill_date o' = bill_date o ∧
        delivery_date o' = delivery_date o ∧ notes o' = notes o ∧
        image_path o' = image_path o ∧ customer_name o' = customer_name o ∧
        total_amount o' = total_amount o.
Proof.
  intros Hi.
  destruct (later_table_lookup _ _ i o (run_later_table rqs w) Hi)
    as (o' & Hi' & He).
  exists o'. split; [done|].
  destruct He as (? & ? & ? & ? & ? & ? & ? & _). done.
Qed.

(** X8: no route moves an order to In Progress. When no order of the table
    is In Progress, none is after any requests: an order is Pending or
    Complete, or has the status it had from the start. *)
Theorem in_progress_never_entered (rqs : list (Env * Request)) (w : World) :
  (∀ o, o ∈ Orders w → status o ≠ InProgress) →
  ∀ o, o ∈ Orders (run rqs w) → status o ≠ InProgress.
Proof.
  intros Hw o' Hin.
  destruct (later_table_elem_of _ _ o' (run_later_table rqs w) Hin)
    as (o & (_ & _ & _ & _ & _ & _ & _ & He) & Hfrom).
  destruct He as [->|(_ & -> & _)]; [|done].
  destruct Hfrom as [?|(-> & _)]; [by apply Hw | done].
Qed.

(** X9: status and completion date go together. When every order of the
    table is Complete exactly if its completion date is set, this is still
    so after any requests. *)
Theorem completion_date_iff_complete (rqs : list (Env * Request)) (w : World) :
  (∀ o, o ∈ Orders w → status o = Complete ↔ is_Some (completion_date o)) →
  ∀ o, o ∈ Orders (run rqs w) →
       status o = Complete ↔ is_Some (completion_date o).
Proof.
  intros Hw o' Hin.
  destruct (later_table_elem_of _ _ o' (run_later_table rqs w) Hin)
    as (o & (_ & _ & _ & _ & _ & _ & _ & He) & Hfrom).
  destruct He as [->|(_ & -> & ?)]; [|done].
  destruct Hfrom as [?|(Hs & Hc & _)]; [by apply Hw|].
  rewrite Hs, Hc. split; [done | by intros [? ?]].
Qed.

Lemma complete_order_never_changes_witness :
  ∃ o, Orders world_3 !! 0%nat = Some o ∧ status o = Complete ∧
       Orders (run later_requests world_3) !! 0%nat = Some o.
Proof.
  eexists. split; [reflexivity|]. split; [reflexivity|].
  apply (complete_order_never_changes later_requests world_3 0); reflexivity.
Defined.

Lemma order_columns_immutable_witness :
  ∃ o', Orders (run later_requests world_2) !! 1%nat = Some o' ∧
        bill_number o' = "B101" ∧ notes o' = "two sleeves".
Proof.
  destruct (order_columns_immutable later_requests world_2 1
              (new_row req_b101 "2025-01-02" None) eq_refl)
    as (o' & Hi & Hb & _ & _ & Hn & _).
  exists o'. split; [exact Hi|]. split; [exact Hb | exact Hn].
Defined.

Lemma in_progress_never_entered_witness :
  Forall (λ o, status o ≠ InProgress) (Orders (run later_requests world_2)).
Proof.
  apply Forall_forall.
  apply (in_progress_never_entered later_requests world_2).
  intros o Ho. vm_compute in Ho.
  apply elem_of_cons in Ho as [->|Ho]; [discriminate|].
  apply elem_of_cons in Ho as [->|Ho]; [discriminate|].
  by apply not_elem_of_nil in Ho.
Defined.

Lemma completion_date_iff_complete_witness :
  Forall (λ o, status o = Complete ↔ is_Some (completion_date o))
         (Orders (run later_requests world_2)).
Proof.
  apply Forall_forall.
  apply (completion_date_iff_complete later_requests world_2).
  intros o Ho. vm_compute in Ho.
  apply elem_of_cons in Ho as [->|Ho];
    [split; [discriminate | by intros [? ?]]|].
  apply elem_of_cons in Ho as [->|Ho];
    [split; [discriminate | by intros [? ?]]|].
  by apply not_elem_of_nil in Ho.
Defined.

(** ** Bill numbers *)

(** X11: a bill number is used once. After an order was created, no
    creation request with its bill number is answered 201 any more,
    whatever requests came in between and whatever the store does. *)
Theorem bill_number_never_reused (env env2 : Env) (r r2 : CreateReq)
    (rqs : list (Env * Request)) (w : World) :
  code (response_of (post_orders env r w)) = 201 →
  body_bill_number r2 = body_bill_number r →
  code (response_of
          (post_orders env2 r2 (run rqs (world_of (post_orders env r w)))))
    ≠ 201.
Proof.
  intros Hc Hb.
  destruct (created_bill_number_stored env r w Hc) as (bn & Hbn & Hin).
  pose proof (run_keeps_bill_numbers rqs (world_of (post_orders env r w)))
    as [more Hmore].
  set (w' := run rqs _) in *.
  destruct (post_orders_rows env2 r2 w')
    as [(_ & _ & _ & _ & _ & Hk)|(Hc' & _)].
  - rewrite Hb, Hbn in Hk. simpl in Hk.
    apply bool_decide_eq_false in Hk. destruct Hk. rewrite Hmore. set_solver.
  - intros H201. rewrite H201 in Hc'. set_solver.
Qed.

Lemma bill_number_never_reused_witness :
  code (response_of
          (post_orders env_a req_b100_again
             (run later_requests (world_of (post_orders env_a req_b100 world_0)))))
    ≠ 201.
Proof.
  apply (bill_number_never_reused env_a env_a req_b100 req_b100_again
           later_requests world_0); reflexivity.
Defined.

(** X12: an order that was just created can be completed. After a creation
    answered 201, a completion of its bill number is answered 200 when the
    store is at work. *)
Theorem created_order_can_be_completed (env env2 : Env) (r : CreateReq)
    (bn : string) (w : World) :
  code (response_of (post_orders env r w)) = 201 →
  body_bill_number r = Some bn →
  store_fault env2 = None →
  code (response_of (put_complete env2 bn (world_of (post_orders env r w))))
    = 200.
Proof.
  intros Hc Hb Hf.
  destruct (post_orders_created env r w Hc) as [Ho _].
  rewrite put_complete_run by done. unfold response_of. simpl.
  destruct (_ =? _)%nat eqn:E; [|done].
  apply Nat.eqb_eq, no_eligible_filter in E. destruct E.
  exists (new_row r (today env) (stored_name env r)). split.
  - rewrite Ho. set_solver.
  - unfold open_order, new_row. simpl. by rewrite Hb.
Qed.

Lemma created_order_can_be_completed_witness :
  code (response_of (put_complete env_z "B100" world_1)) = 200.
Proof.
  apply (created_order_can_be_completed env_a env_z req_b100 "B100" world_0);
    reflexivity.
Defined.

(** ** When the store rejects the statement *)

(** X13: when the row store rejects the statement of a request, no route
    reports success and the table is as it was: the answer is 500, or 400
    for an invalid creation, decided before the store is asked, or 409 when
    the rejection of an INSERT carries ER_DUP_ENTRY. A request that stored
    no file leaves the disk and the requested unlinks as they were too. *)
Theorem store_fault_changes_nothing (env : Env) (c : string) (rq : Request)
    (w : World) :
  store_fault env = Some c →
  let res := handle env rq w in
  code (response_of res) ∈ [400; 409; 500] ∧
  (code (response_of res) = 409 → c = "ER_DUP_ENTRY") ∧
  Orders (world_of res) = Orders w ∧
  (request_file env rq = None → world_of res = w).
Proof.
  intros Hf res. subst res. destruct rq as [r|bn|s e|]; simpl.
  - destruct (decide (upload_result env r = WriteFailed)) as [Hu|Hu].
    { rewrite post_orders_write_failed by done. cbn.
      repeat split; try done; set_solver. }
    destruct (post_orders_callback env r w Hu) as (-> & -> & _).
    unfold uploaded. destruct (stored_file env r) as [f|].
    all: create_cases env (@None ReqFile); cbn; try congruence.
    all: match goal with
         | H : String.eqb _ _ = true |- _ => apply String.eqb_eq in H
         | _ => idtac
         end.
    all: repeat split; try done; try congruence; set_solver.
  - rewrite (put_complete_fault env bn c) by done. cbn.
    repeat split; try done; set_solver.
  - unfold get_pending, sql_select_pending, bind, respond. rewrite Hf. cbn.
    repeat split; try done; set_solver.
  - unfold get_orders, sql_select_all, bind, respond. rewrite Hf. cbn.
    repeat split; try done; set_solver.
Qed.

Lemma store_fault_changes_nothing_witness :
  code (response_of (handle env_f (CompleteOrder "B100") world_2)) ∈ [400; 409; 500]
  ∧ Orders (world_of (handle env_f (CreateOrder req_b100_again) world_2))
    = Orders world_2.
Proof.
  split.
  - exact (proj1 (store_fault_changes_nothing env_f "ECONNREFUSED"
                    (CompleteOrder "B100") world_2 eq_refl)).
  - destruct (store_fault_changes_nothing env_f "ECONNREFUSED"
                (CreateOrder req_b100_again) world_2 eq_refl)
      as (_ & _ & H & _).
    exact H.
Defined.

(** ** One answer per request *)

(** X14: every request is answered exactly once, with the code of its
    response; a route sends at most one statement to the row store, and a
    creation answered 400 sends none. *)
Theorem answered_exactly_once (env : Env) (rq : Request) (w : World) :
  let res := handle env rq w in
  Respond (code (response_of res)) ∈ steps_of res ∧
  length (filter (λ s, is_respond s = true) (steps_of res)) = 1%nat ∧
  (length (filter (λ s, is_statement s = true) (steps_of res)) ≤ 1)%nat ∧
  (code (response_of res) = 400 →
   length (filter (λ s, is_statement s = true) (steps_of res)) = 0%nat).
Proof.
  intros res. subst res. destruct rq as [r|bn|s e|]; simpl.
  - destruct (decide (upload_result env r = WriteFailed)) as [Hu|Hu].
    { rewrite post_orders_write_failed by done. cbn.
      repeat split; try done; try lia; set_solver. }
    destruct (post_orders_callback env r w Hu) as (-> & _ & ->).
    unfold persisted. destruct (stored_file env r) as [f|].
    all: create_cases env (@None ReqFile); cbn.
    all: repeat split; try done; try lia; set_solver.
  - unfold put_complete, sql_complete, bind, respond.
    destruct (store_fault env); cbn;
      [repeat split; try done; try lia; set_solver|].
    destruct (_ =? _)%nat; cbn; repeat split; try done; try lia; set_solver.
  - unfold get_pending, sql_select_pending, bind, respond.
    destruct (store_fault env); cbn;
      repeat split; try done; try lia; set_solver.
  - unfold get_orders, sql_select_all, bind, respond.
    destruct (store_fault env); cbn;
      repeat split; try done; try lia; set_solver.
Qed.

Lemma answered_exactly_once_witness :
  length (filter (λ s, is_statement s = true)
            (steps_of (handle env_a (CreateOrder req_nokey) world_2))) = 0%nat.
Proof.
  apply (answered_exactly_once env_a (CreateOrder req_nokey) world_2).
  reflexivity.
Defined.

(** ** The pending listing at its edges *)

Lemma pending_rows_from_queue (env : Env) (lo hi : string) (w : World)
    (row : PendingRow) :
  row ∈ pending_row <$>
        merge_sort by_delivery_asc
          (filter (λ o, is_pending lo hi o = true) (Orders w)) →
  ∃ o, o ∈ Orders w ∧ in_queue lo hi o ∧ row = pending_row o.
Proof.
  rewrite (merge_sort_Permutation by_delivery_asc).
  intros (o & -> & [Hq Hin]%list_elem_of_filter)%list_elem_of_fmap.
  exists o. split; [done|]. split; [by apply is_pending_in_queue | done].
Qed.

Lemma get_pending_run (env : Env) (s e : option string) (w : World) :
  store_fault env = None →
  get_pending env s e w =
  (mkResponse 200
     (JPending (pending_row <$>
        merge_sort by_delivery_asc
          (filter (λ o, is_pending (or_default s "2000-01-01")
                                   (or_default e "2100-01-01") o = true)
             (Orders w)))),
   w, [Select; Respond 200]).
Proof.
  intros Hf. unfold get_pending, sql_select_pending, bind, respond.
  by rewrite Hf.
Qed.

(** X15: a range whose end lies before its start selects nothing: the
    pending listing answers 200 with no rows. *)
Theorem pending_inverted_range_is_empty (env : Env)
    (q_start q_end : option string) (lo hi : string) (w : World) :
  store_fault env = None →
  bound q_start "2000-01-01" lo →
  bound q_end "2100-01-01" hi →
  ¬ String.le lo hi →
  response_of (get_pending env q_start q_end w) = mkResponse 200 (JPending []).
Proof.
  intros Hf Hlo Hhi Hinv. rewrite get_pending_run by done.
  rewrite (bound_or_default _ _ _ Hlo), (bound_or_default _ _ _ Hhi).
  unfold response_of. simpl. do 2 f_equal.
  destruct (pending_row <$> _) as [|row rows] eqn:E; [done|]. exfalso.
  destruct (pending_rows_from_queue env lo hi w row) as (o & _ & Hq & _).
  { rewrite E. apply list_elem_of_here. }
  destruct Hq as (_ & H1 & H2). apply Hinv. by etrans.
Qed.

Lemma pending_inverted_range_is_empty_witness :
  response_of (get_pending env_a (Some "2025-02-01") (Some "2025-01-01") world_2)
  = mkResponse 200 (JPending []).
Proof.
  apply (pending_inverted_range_is_empty env_a _ _ "2025-02-01" "2025-01-01");
    [reflexivity | by right | by right |].
  vm_compute. intros H. exact H.
Defined.

(** X16: after a completion of a bill number that the store executed,
    whether it was answered 200 or 404, no order with that number is in the
    pending listing, for any range, and every order with that number is
    Complete in the full listing. *)
Theorem completed_order_leaves_queue (env env2 : Env) (bn : string)
    (q_start q_end : option string) (w : World) :
  store_fault env = None → store_fault env2 = None →
  let w' := world_of (put_complete env bn w) in
  ∃ pending all,
    response_of (get_pending env2 q_start q_end w')
      = mkResponse 200 (JPending pending) ∧
    response_of (get_orders env2 w') = mkResponse 200 (JOrders all) ∧
    (∀ row, row ∈ pending → p_bill_number row ≠ bn) ∧
    (∀ row, row ∈ all → h_bill_number row = bn → h_status row = Complete).
Proof.
  intros Hf Hf2 w'.
  rewrite get_pending_run, get_orders_run by done.
  eexists _, _. split; [reflexivity|]. split; [reflexivity|].
  assert (Hno : ¬ ∃ o, o ∈ Orders w' ∧ open_order bn o).
  { subst w'. rewrite put_complete_run by done. unfold world_of. simpl.
    apply no_open_after_complete. }
  split.
  - intros row Hrow Hbn.
    apply pending_rows_from_queue in Hrow as (o & Hin & Hq & ->); [|done].
    apply Hno. exists o. split; [done|]. split; [done|].
    destruct Hq as ([-> | ->] & _); done.
  - intros row Hrow Hbn.
    rewrite (merge_sort_Permutation by_bill_desc) in Hrow.
    apply list_elem_of_fmap in Hrow as (o & -> & Hin). simpl in *.
    destruct (decide (status o = Complete)) as [?|Hs]; [done|].
    destruct Hno. by exists o.
Qed.

Lemma completed_order_leaves_queue_witness :
  ∃ pending,
    response_of (get_pending env_z None None world_3)
      = mkResponse 200 (JPending pending) ∧
    ∀ row, row ∈ pending → p_bill_number row ≠ "B100".
Proof.
  destruct (completed_order_leaves_queue env_a env_z "B100" None None world_2
              eq_refl eq_refl) as (pending & all & Hp & _ & Hno & _).
  exists pending. split; [exact Hp | exact Hno].
Defined.

(** ** Listings against each other, and completion under unique keys *)

(** X17: the pending listing shows nothing the full listing does not show:
    every row of the pending listing is the projection of an order that the
    full listing shows with the same bill number, delivery date, notes,
    status and image path. *)
Theorem pending_rows_are_listed (env env2 : Env) (q_start q_end : option string)
    (w : World) :
  store_fault env = None → store_fault env2 = None →
  ∃ pending all,
    response_of (get_pending env q_start q_end w)
      = mkResponse 200 (JPending pending) ∧
    response_of (get_orders env2 w) = mkResponse 200 (JOrders all) ∧
    ∀ row, row ∈ pending →
      (p_status row = Pending ∨ p_status row = InProgress) ∧
      ∃ h, h ∈ all ∧ h_bill_number h = p_bill_number row ∧
           h_delivery_date h = p_delivery_date row ∧
           h_notes h = p_notes row ∧ h_status h = p_status row ∧
           h_image_path h = p_image_path row.
Proof.
  intros Hf Hf2. rewrite get_pending_run, get_orders_run by done.
  eexists _, _. split; [reflexivity|]. split; [reflexivity|].
  intros row Hrow.
  apply pending_rows_from_queue in Hrow as (o & Hin & Hq & ->); [|done].
  split; [apply Hq|]. exists (history_row o). split; [|done].
  rewrite (merge_sort_Permutation by_bill_desc).
  apply list_elem_of_fmap. by exists o.
Qed.

Lemma pending_rows_are_listed_witness :
  ∃ pending,
    response_of (get_pending env_a None None world_3)
      = mkResponse 200 (JPending pending) ∧
    ∀ row, row ∈ pending → p_status row = Pending ∨ p_status row = InProgress.
Proof.
  destruct (pending_rows_are_listed env_a env_a None None world_3
              eq_refl eq_refl) as (pending & all & Hp & _ & H).
  exists pending. split; [exact Hp|]. intros row Hrow. exact (proj1 (H row Hrow)).
Defined.




